(** * nnz: primitive wrappers whose zero value stands for SQL/JSON null

    A shallow embedding of package [nnz] (types [Bool], [Int], [Int64],
    [Float64], [String], [Time] with their [Scan], [Value], [MarshalJSON],
    [UnmarshalJSON] methods, and [Time]'s text and gob codecs), followed by
    the properties of its specification.

    The package is a thin layer over [database/sql/driver], [encoding/json],
    [fmt] and [time].  The parts of those packages that the methods reach are
    modelled below, each in a module named after its Go package, for a 64-bit
    platform (Go's [int] is 64 bits wide).  Three library functions are left
    open and passed as arguments where they are called: the digits
    [strconv] writes for a float64, [time.Time.MarshalJSON] and
    [time.Parse]; so is the local time zone.

    Go's [string] and [[]byte] are both byte sequences and are both
    represented by [string]; the conversions [string(b)] and [[]byte(s)] are
    the identity.  A method with a pointer receiver takes the value stored in
    the receiver and returns the value stored afterwards, next to its error
    result ([None] is a nil error).  A method returning [(T, error)] returns
    a [result T]. *)

From Stdlib Require Import ZArith Lia Bool List String Ascii.
From Stdlib Require Import Floats.SpecFloat.
Import ListNotations.

Local Open Scope string_scope.
Local Open Scope Z_scope.

(** ** Machine integers *)

Definition wrap_signed (w z : Z) : Z := (z + 2 ^ (w - 1)) mod 2 ^ w - 2 ^ (w - 1).
Definition wrap_unsigned (w z : Z) : Z := z mod 2 ^ w.

(** The conversions [int64(x)], [int32(x)], ... of an integer [x]. *)
Definition int64 (z : Z) : Z := wrap_signed 64 z.
Definition int32 (z : Z) : Z := wrap_signed 32 z.
Definition int16 (z : Z) : Z := wrap_signed 16 z.
Definition int8 (z : Z) : Z := wrap_signed 8 z.
Definition int (z : Z) : Z := wrap_signed 64 z.
Definition uint64 (z : Z) : Z := wrap_unsigned 64 z.
Definition byte (z : Z) : Z := wrap_unsigned 8 z.

Definition in_int64 (z : Z) : Prop := - 2 ^ 63 <= z < 2 ^ 63.

(** ** Bytes *)

Definition bytes := string.

Definition Z_of_ascii (c : ascii) : Z := Z.of_N (N_of_ascii c).
Definition ascii_of_Z (z : Z) : ascii := ascii_of_N (Z.to_N z).

(** The slices [s[:n]] and [s[n:]]. *)
Fixpoint take (n : nat) (s : string) : string :=
  match n, s with
  | S n', String c r => String c (take n' r)
  | _, _ => EmptyString
  end.

Fixpoint drop (n : nat) (s : string) : string :=
  match n, s with
  | S n', String _ r => drop n' r
  | _, _ => s
  end.

(** The double quote character. *)
Definition dquote : ascii := Eval cbv in ascii_of_nat 34.

(** ** Errors *)

Inductive error : Type :=
| Errorf (msg : string)              (* fmt.Errorf / errors.New *)
| SyntaxError                        (* *json.SyntaxError *)
| UnmarshalTypeError                 (* *json.UnmarshalTypeError *)
| UnsupportedValueError              (* *json.UnsupportedValueError *)
| MarshalerError (cause : error)     (* *json.MarshalerError *)
| ParseError (value : string).       (* *time.ParseError *)

(** A Go result pair [(T, error)] with [err != nil] on the right. *)
Definition result (A : Type) : Type := (A + error)%type.
Definition Ok {A} (a : A) : result A := inl a.
Definition Err {A} (e : error) : result A := inr e.

(** ** float64

    IEEE 754 binary64 values in the representation of [SpecFloat]: a finite
    non-zero value is [(-1)^s * m * 2^e]. *)

Definition float64 := spec_float.

Module f64.

Definition prec : Z := 53.
Definition emax : Z := 1024.

Definition zero : float64 := S754_zero false.

(** Go's [==] on float64: [+0 == -0], and NaN differs from everything. *)
Definition eqb (x y : float64) : bool := SFeqb x y.

Definition IsNaN (x : float64) : bool :=
  match x with S754_nan => true | _ => false end.
Definition IsInf (x : float64) : bool :=
  match x with S754_infinity _ => true | _ => false end.

(** The float64 nearest to [(-1)^neg * d * 10^e10] (ties to even). *)
Definition of_decimal (neg : bool) (d e10 : Z) : float64 :=
  match d with
  | Zpos p =>
      match e10 with
      | Zneg k =>
          SFdiv prec emax (S754_finite neg p 0) (S754_finite false (Pos.pow 10 k) 0)
      | _ => binary_normalize prec emax (cond_Zopp neg (d * 10 ^ e10)) 0 neg
      end
  | _ => S754_zero neg
  end.

(** The integer part of a finite value, rounded toward zero. *)
Definition trunc (x : float64) : option Z :=
  match x with
  | S754_zero _ => Some 0
  | S754_finite s m e =>
      Some (cond_Zopp s (if 0 <=? e then Zpos m * 2 ^ e else Zpos m / 2 ^ (- e)))
  | _ => None
  end.

(** The conversion [int64(x)] of a float64: the fraction is discarded.  Where
    the result does not fit, Go leaves the value to the implementation; amd64
    yields the minimal int64. *)
Definition to_int64 (x : float64) : Z :=
  match trunc x with
  | Some z => if (- 2 ^ 63 <=? z) && (z <? 2 ^ 63) then z else - 2 ^ 63
  | None => - 2 ^ 63
  end.

End f64.

(** ** Package time: the representation of [time.Time] and its binary codec *)

Module time.

(** A [*Location] other than [&utcLoc]: the local zone or a fixed offset in
    seconds east of UTC.  (Zones loaded from the time zone database are not
    represented; they do not occur in what follows.) *)
Inductive Location : Type :=
| Local
| FixedZone (name : string) (offset : Z).

(** [loc = None] is the nil pointer, which means UTC. *)
Record Time : Type := mkTime { wall : Z; ext : Z; loc : option Location }.

Definition hasMonotonic : Z := Z.shiftl 1 63.
Definition nsecMask : Z := Z.shiftl 1 30 - 1.
Definition nsecShift : Z := 30.

Definition wallToInternal : Z :=
  (1884 * 365 + 1884 / 4 - 1884 / 100 + 1884 / 400) * 86400.
Definition unixToInternal : Z :=
  (1969 * 365 + 1969 / 4 - 1969 / 100 + 1969 / 400) * 86400.
Definition internalToUnix : Z := - unixToInternal.

(** [var zt time.Time]: the zero value of the struct. *)
Definition zero : Time := mkTime 0 0 None.

Definition nsec (t : Time) : Z := int32 (Z.land (wall t) nsecMask).

Definition sec (t : Time) : Z :=
  if negb (Z.land (wall t) hasMonotonic =? 0)
  then int64 (wallToInternal
              + int64 (Z.shiftr (uint64 (Z.shiftl (wall t) 1)) (nsecShift + 1)))
  else ext t.

Definition unixSec (t : Time) : Z := int64 (sec t + internalToUnix).

Definition IsZero (t : Time) : bool := (sec t =? 0) && (nsec t =? 0).

Definition stripMono (t : Time) : Time :=
  if negb (Z.land (wall t) hasMonotonic =? 0)
  then mkTime (Z.land (wall t) nsecMask) (sec t) (loc t)
  else t.

(** [setLoc]: the argument [None] stands for [&utcLoc], stored as nil. *)
Definition setLoc (t : Time) (l : option Location) : Time :=
  let t := stripMono t in mkTime (wall t) (ext t) l.

Section Binary.

(** The offset, in seconds east of UTC, that the local zone has at a given
    Unix time: the process's time zone, an input of the program. *)
Variable localOffset : Z -> Z.

(** The offset of [t.Zone()]. *)
Definition zoneOffset (l : Location) (t : Time) : Z :=
  match l with
  | Local => localOffset (unixSec t)
  | FixedZone _ off => off
  end.

Definition timeBinaryVersionV1 : Z := 1.
Definition timeBinaryVersionV2 : Z := 2.

Definition put (z : Z) : ascii := ascii_of_Z (byte z).

Definition MarshalBinary (t : Time) : result bytes :=
  let enc (version offsetMin : Z) (tail : string) : bytes :=
    let s := sec t in
    let n := nsec t in
    String (put version)
   (String (put (Z.shiftr s 56)) (String (put (Z.shiftr s 48))
   (String (put (Z.shiftr s 40)) (String (put (Z.shiftr s 32))
   (String (put (Z.shiftr s 24)) (String (put (Z.shiftr s 16))
   (String (put (Z.shiftr s 8))  (String (put s)
   (String (put (Z.shiftr n 24)) (String (put (Z.shiftr n 16))
   (String (put (Z.shiftr n 8))  (String (put n)
   (String (put (Z.shiftr offsetMin 8)) (String (put offsetMin) tail)))))))))))))) in
  match loc t with
  | None => Ok (enc timeBinaryVersionV1 (-1) "")
  | Some l =>
      let offset := zoneOffset l t in
      let v2 := negb (Z.rem offset 60 =? 0) in
      let offsetSec := if v2 then int8 (Z.rem offset 60) else 0 in
      let offset := Z.quot offset 60 in
      if (offset <? -32768) || (offset =? -1) || (32767 <? offset)
      then Err (Errorf "Time.MarshalBinary: unexpected zone offset")
      else if v2
           then Ok (enc timeBinaryVersionV2 (int16 offset)
                        (String (put offsetSec) ""))
           else Ok (enc timeBinaryVersionV1 (int16 offset) "")
  end.

(** [buf[i]] *)
Definition at_ (buf : bytes) (i : nat) : Z :=
  match String.get i buf with Some c => Z_of_ascii c | None => 0 end.

(** [UnmarshalBinary].  The seconds byte of version 2 is added as
    [int(buf[2])], an unsigned byte; a release that reads it with its sign
    differs in the zone of such a timestamp, not in its instant. *)
Definition UnmarshalBinary (data : bytes) : result Time :=
  let buf := data in
  if (String.length buf =? 0)%nat
  then Err (Errorf "Time.UnmarshalBinary: no data")
  else
    let version := at_ buf 0 in
    if negb (version =? timeBinaryVersionV1) && negb (version =? timeBinaryVersionV2)
    then Err (Errorf "Time.UnmarshalBinary: unsupported version")
    else
      let wantLen := (1 + 8 + 4 + 2)%nat in
      let wantLen := if version =? timeBinaryVersionV2 then S wantLen else wantLen in
      if negb (String.length buf =? wantLen)%nat
      then Err (Errorf "Time.UnmarshalBinary: invalid length")
      else
        let buf := String.substring 1 (String.length buf - 1) buf in
        let s :=
          int64 (Z.lor (at_ buf 7) (Z.lor (Z.shiftl (at_ buf 6) 8)
                (Z.lor (Z.shiftl (at_ buf 5) 16) (Z.lor (Z.shiftl (at_ buf 4) 24)
                (Z.lor (Z.shiftl (at_ buf 3) 32) (Z.lor (Z.shiftl (at_ buf 2) 40)
                (Z.lor (Z.shiftl (at_ buf 1) 48) (Z.shiftl (at_ buf 0) 56)))))))) in
        let buf := String.substring 8 (String.length buf - 8) buf in
        let n :=
          int32 (Z.lor (at_ buf 3) (Z.lor (Z.shiftl (at_ buf 2) 8)
                (Z.lor (Z.shiftl (at_ buf 1) 16) (Z.shiftl (at_ buf 0) 24)))) in
        let buf := String.substring 4 (String.length buf - 4) buf in
        let offset := int16 (Z.lor (at_ buf 1) (Z.shiftl (at_ buf 0) 8)) * 60 in
        let offset :=
          if version =? timeBinaryVersionV2 then offset + at_ buf 2 else offset in
        let t := mkTime (uint64 n) s None in
        if offset =? -1 * 60 then Ok (setLoc t None)
        else if offset =? localOffset (unixSec t) then Ok (setLoc t (Some Local))
        else Ok (setLoc t (Some (FixedZone "" offset))).

End Binary.

End time.

(** ** Dynamically typed values

    A value of type [interface{}] (and so a [driver.Value]): nil or a value
    of some dynamic type.  The dynamic types named are the ones a database
    driver hands to [Scan] and the ones [encoding/json] decodes into; a value
    of any other type is [Other] with the name [%T] prints for its type. *)

#[local] Set Warnings "-register-all".

Inductive any : Type :=
| Nil
| VBool (b : bool)
| VInt64 (n : Z)
| VFloat64 (f : float64)
| VString (s : string)
| VBytes (b : bytes)                      (* []byte *)
| VTime (t : time.Time)
| VSlice (l : list any)                   (* []interface{} *)
| VMap (m : list (string * any))          (* map[string]interface{} *)
| Other (type_name : string).

(** ** Package strconv *)

Module strconv.

Definition digit_char (d : Z) : ascii := ascii_of_Z (48 + d).

(** [formatBits] in base 10: the digits of [u] are laid down from the least
    significant one, in front of [acc].  A uint64 has at most 20 digits. *)
Fixpoint formatBits (fuel : nat) (u : Z) (acc : string) : string :=
  match fuel with
  | O => acc
  | S fuel' =>
      if u <? 10 then String (digit_char u) acc
      else formatBits fuel' (u / 10) (String (digit_char (u mod 10)) acc)
  end.

(** [FormatInt(i, 10)] *)
Definition FormatInt (i : Z) : string :=
  if i <? 0 then String "-" (formatBits 20 (- i) "") else formatBits 20 i "".

(** [ParseFloat(s, 64)] on a decimal literal already split into its sign,
    its digits [d] and the power of ten they are scaled by: the nearest
    float64, and a range error where that is an infinity. *)
Definition ParseFloat (neg : bool) (d e10 : Z) : option float64 :=
  let f := f64.of_decimal neg d e10 in
  if f64.IsInf f then None else Some f.

End strconv.

(** ** Packages unicode/utf8 and unicode/utf16 *)

Module utf8.

Definition RuneError : Z := 0xFFFD.
Definition RuneSelf : Z := 0x80.
Definition MaxRune : Z := 0x10FFFF.
Definition surrogateMin : Z := 0xD800.
Definition surrogateMax : Z := 0xDFFF.

Definition maskx : Z := 0x3F.
Definition mask2 : Z := 0x1F.
Definition mask3 : Z := 0x0F.
Definition mask4 : Z := 0x07.
Definition locb : Z := 0x80.
Definition hicb : Z := 0xBF.

(** The table [first] with [acceptRanges]: for a leading byte, the length of
    the sequence and the range of its second byte; [None] for [xx]. *)
Definition first (p0 : Z) : option (nat * Z * Z) :=
  if p0 <? 0xC2 then None
  else if p0 <? 0xE0 then Some (2%nat, locb, hicb)
  else if p0 =? 0xE0 then Some (3%nat, 0xA0, hicb)
  else if p0 =? 0xED then Some (3%nat, locb, 0x9F)
  else if p0 <? 0xF0 then Some (3%nat, locb, hicb)
  else if p0 =? 0xF0 then Some (4%nat, 0x90, hicb)
  else if p0 <? 0xF4 then Some (4%nat, locb, hicb)
  else if p0 =? 0xF4 then Some (4%nat, locb, 0x8F)
  else None.

Definition cont (b : Z) : bool := (locb <=? b) && (b <=? hicb).

(** The rune of a sequence of two, three and four bytes. *)
Definition rune2 (p0 b1 : Z) : Z :=
  Z.lor (Z.shiftl (Z.land p0 mask2) 6) (Z.land b1 maskx).

Definition rune3 (p0 b1 b2 : Z) : Z :=
  Z.lor (Z.shiftl (Z.land p0 mask3) 12)
    (Z.lor (Z.shiftl (Z.land b1 maskx) 6) (Z.land b2 maskx)).

Definition rune4 (p0 b1 b2 b3 : Z) : Z :=
  Z.lor (Z.shiftl (Z.land p0 mask4) 18)
    (Z.lor (Z.shiftl (Z.land b1 maskx) 12)
       (Z.lor (Z.shiftl (Z.land b2 maskx) 6) (Z.land b3 maskx))).

(** [DecodeRune(p)]: the first rune of [p] and its width in bytes;
    [(RuneError, 1)] where [p] does not start with a well-formed sequence. *)
Definition DecodeRune (p : string) : Z * nat :=
  match p with
  | EmptyString => (RuneError, 0%nat)
  | String c0 p1 =>
      let p0 := Z_of_ascii c0 in
      if p0 <? RuneSelf then (p0, 1%nat)
      else
        match first p0, p1 with
        | Some (sz, lo, hi), String c1 p2 =>
            let b1 := Z_of_ascii c1 in
            if (b1 <? lo) || (hi <? b1) then (RuneError, 1%nat)
            else if (sz <=? 2)%nat
            then (rune2 p0 b1, 2%nat)
            else
              match p2 with
              | String c2 p3 =>
                  let b2 := Z_of_ascii c2 in
                  if negb (cont b2) then (RuneError, 1%nat)
                  else if (sz <=? 3)%nat
                  then (rune3 p0 b1 b2, 3%nat)
                  else
                    match p3 with
                    | String c3 _ =>
                        let b3 := Z_of_ascii c3 in
                        if negb (cont b3) then (RuneError, 1%nat)
                        else (rune4 p0 b1 b2 b3, 4%nat)
                    | EmptyString => (RuneError, 1%nat)
                    end
              | EmptyString => (RuneError, 1%nat)
              end
        | _, _ => (RuneError, 1%nat)
        end
  end.

Definition enc3 (r : Z) : string :=
  String (ascii_of_Z (Z.lor 0xE0 (byte (Z.shiftr r 12))))
 (String (ascii_of_Z (Z.lor 0x80 (Z.land (byte (Z.shiftr r 6)) maskx)))
 (String (ascii_of_Z (Z.lor 0x80 (Z.land (byte r) maskx))) "")).

(** [EncodeRune(p, r)]: the bytes written for [r]. *)
Definition EncodeRune (r : Z) : string :=
  let i := wrap_unsigned 32 r in
  if i <=? 0x7F then String (ascii_of_Z (byte r)) ""
  else if i <=? 0x7FF then
    String (ascii_of_Z (Z.lor 0xC0 (byte (Z.shiftr r 6))))
   (String (ascii_of_Z (Z.lor 0x80 (Z.land (byte r) maskx))) "")
  else if (MaxRune <? i) || ((surrogateMin <=? i) && (i <=? surrogateMax))
  then enc3 RuneError
  else if i <=? 0xFFFF then enc3 r
  else
    String (ascii_of_Z (Z.lor 0xF0 (byte (Z.shiftr r 18))))
   (String (ascii_of_Z (Z.lor 0x80 (Z.land (byte (Z.shiftr r 12)) maskx)))
   (String (ascii_of_Z (Z.lor 0x80 (Z.land (byte (Z.shiftr r 6)) maskx)))
   (String (ascii_of_Z (Z.lor 0x80 (Z.land (byte r) maskx))) ""))).

(** [ValidString(s)]: [s] is a sequence of well-formed encodings. *)
Fixpoint valid_from (fuel : nat) (s : string) : bool :=
  match fuel with
  | O => true
  | S fuel' =>
      match s with
      | EmptyString => true
      | String _ _ =>
          let '(r, size) := DecodeRune s in
          if (r =? RuneError) && (size =? 1)%nat then false
          else valid_from fuel' (drop size s)
      end
  end.

Definition ValidString (s : string) : bool := valid_from (String.length s) s.

End utf8.

Module utf16.

Definition surr1 : Z := 0xd800.
Definition surr2 : Z := 0xdc00.
Definition surr3 : Z := 0xe000.
Definition surrSelf : Z := 0x10000.
Definition replacementChar : Z := 0xFFFD.

Definition IsSurrogate (r : Z) : bool := (surr1 <=? r) && (r <? surr3).

Definition DecodeRune (r1 r2 : Z) : Z :=
  if (surr1 <=? r1) && (r1 <? surr2) && (surr2 <=? r2) && (r2 <? surr3)
  then Z.lor (Z.shiftl (r1 - surr1) 10) (r2 - surr2) + surrSelf
  else replacementChar.

End utf16.

(** ** Package encoding/json

    [Unmarshal(data, &v)] for [v] of type [interface{}], and [Marshal] at the
    types the wrappers pass to it.  Decoding has the two phases of the
    package: the text is checked and cut into a syntax tree first (a syntax
    error wins over everything else), and the tree is then converted, numbers
    becoming float64. *)

Module json.

Definition isSpace (c : ascii) : bool :=
  (c =? " ")%char || (Z_of_ascii c =? 9) || (Z_of_ascii c =? 13) || (Z_of_ascii c =? 10).

Fixpoint skip_ws (s : string) : string :=
  match s with
  | String c r => if isSpace c then skip_ws r else s
  | EmptyString => s
  end.

Definition is_digit (c : ascii) : bool :=
  (48 <=? Z_of_ascii c) && (Z_of_ascii c <=? 57).

Definition digit_val (c : ascii) : Z := Z_of_ascii c - 48.

(** A run of digits read in front of [s]: the value accumulated on [acc],
    the number of digits, and what follows. *)
Fixpoint digits (acc : Z) (n : Z) (s : string) : Z * Z * string :=
  match s with
  | String c r =>
      if is_digit c then digits (10 * acc + digit_val c) (n + 1) r
      else (acc, n, s)
  | EmptyString => (acc, n, s)
  end.

(** A number literal [-? int frac? exp?] stands for
    [(-1)^neg * mant * 10^exp10]. *)
Record number : Type := mkNumber { neg : bool; mant : Z; exp10 : Z }.

Definition scan_exp (ng : bool) (m e : Z) (s : string) : option (number * string) :=
  match s with
  | String c r =>
      if (c =? "e")%char || (c =? "E")%char then
        let '(sg, r) :=
          match r with
          | String c' r' =>
              if (c' =? "+")%char then (false, r')
              else if (c' =? "-")%char then (true, r')
              else (false, r)
          | EmptyString => (false, r)
          end in
        let '(x, n, r) := digits 0 0 r in
        if n =? 0 then None
        else Some (mkNumber ng m (e + (if sg then - x else x)), r)
      else Some (mkNumber ng m e, s)
  | EmptyString => Some (mkNumber ng m e, s)
  end.

Definition scan_frac (ng : bool) (m : Z) (s : string) : option (number * string) :=
  match s with
  | String c r =>
      if (c =? ".")%char then
        let '(m', n, r) := digits m 0 r in
        if n =? 0 then None else scan_exp ng m' (- n) r
      else scan_exp ng m 0 s
  | EmptyString => Some (mkNumber ng m 0, s)
  end.

Definition scan_int (ng : bool) (s : string) : option (number * string) :=
  match s with
  | String c r =>
      if (c =? "0")%char then scan_frac ng 0 r
      else if is_digit c then
        let '(m, _, r) := digits (digit_val c) 1 r in scan_frac ng m r
      else None
  | EmptyString => None
  end.

Definition scan_number (s : string) : option (number * string) :=
  match s with
  | String c r => if (c =? "-")%char then scan_int true r else scan_int false s
  | EmptyString => None
  end.

Definition hex_val (c : ascii) : option Z :=
  let b := Z_of_ascii c in
  if (48 <=? b) && (b <=? 57) then Some (b - 48)
  else if (97 <=? b) && (b <=? 102) then Some (b - 97 + 10)
  else if (65 <=? b) && (b <=? 70) then Some (b - 65 + 10)
  else None.

(** [getu4]: the rune of a [\uXXXX] escape in front of [s], and what follows
    it; [None] is the result -1. *)
Definition getu4 (s : string) : option (Z * string) :=
  match s with
  | String b (String u (String h1 (String h2 (String h3 (String h4 r))))) =>
      if (b =? "\")%char && (u =? "u")%char then
        match hex_val h1, hex_val h2, hex_val h3, hex_val h4 with
        | Some a, Some b, Some c, Some d =>
            Some (a * 4096 + b * 256 + c * 16 + d, r)
        | _, _, _, _ => None
        end
      else None
  | _ => None
  end.

(** The character a two-byte escape stands for. *)
Definition escape_char (c : ascii) : option ascii :=
  if (c =? dquote)%char || (c =? "\")%char || (c =? "/")%char then Some c
  else if (c =? "b")%char then Some (ascii_of_Z 8)
  else if (c =? "f")%char then Some (ascii_of_Z 12)
  else if (c =? "n")%char then Some (ascii_of_Z 10)
  else if (c =? "r")%char then Some (ascii_of_Z 13)
  else if (c =? "t")%char then Some (ascii_of_Z 9)
  else None.

Definition prepend (p : string) (o : option (string * string)) : option (string * string) :=
  match o with
  | Some (t, r) => Some (p ++ t, r)
  | None => None
  end.

(** A string literal after its opening quote: the scanner's check of the
    literal and [unquote] in one pass.  The result is the decoded string and
    the text after the closing quote.  Each round consumes a byte at least,
    so [fuel] above the length of [s] is never used up. *)
Fixpoint unquote (fuel : nat) (s : string) : option (string * string) :=
  match fuel with
  | O => None
  | S fuel' =>
      match s with
      | EmptyString => None
      | String c r =>
          if (c =? dquote)%char then Some ("", r)
          else if (c =? "\")%char then
            match r with
            | EmptyString => None
            | String e r' =>
                match escape_char e with
                | Some x => prepend (String x "") (unquote fuel' r')
                | None =>
                    if (e =? "u")%char then
                      match getu4 s with
                      | None => None
                      | Some (rr, r2) =>
                          if utf16.IsSurrogate rr then
                            let rr1 := match getu4 r2 with
                                       | Some (x, _) => x
                                       | None => -1
                                       end in
                            let dec := utf16.DecodeRune rr rr1 in
                            if negb (dec =? utf16.replacementChar)
                            then prepend (utf8.EncodeRune dec) (unquote fuel' (drop 6 r2))
                            else prepend (utf8.EncodeRune utf16.replacementChar)
                                         (unquote fuel' r2)
                          else prepend (utf8.EncodeRune rr) (unquote fuel' r2)
                      end
                    else None
                end
            end
          else if Z_of_ascii c <? 32 then None
          else if Z_of_ascii c <? utf8.RuneSelf
          then prepend (String c "") (unquote fuel' r)
          else
            let '(rr, size) := utf8.DecodeRune s in
            prepend (utf8.EncodeRune rr) (unquote fuel' (drop size s))
      end
  end.

Definition scan_string (s : string) : option (string * string) :=
  unquote (S (String.length s)) s.

(** The syntax tree of a JSON text. *)
Inductive value : Type :=
| Null
| Bool (b : bool)
| Number (n : number)
| Str (s : string)
| Array (l : list value)
| Object (m : list (string * value)).

Definition maxNestingDepth : Z := 10000.

Definition literal (lit : string) (v : value) (s : string) : option (value * string) :=
  if String.prefix lit s then Some (v, drop (String.length lit) s) else None.

(** One value in front of [s] (no leading space), at nesting depth [depth].
    Every call uses one unit of [fuel]; twice the length of the text is
    enough for any text. *)
Fixpoint parse_value (fuel : nat) (depth : Z) (s : string) : option (value * string) :=
  match fuel with
  | O => None
  | S fuel' =>
      match s with
      | EmptyString => None
      | String c r =>
          if (c =? "{")%char then
            if maxNestingDepth <=? depth then None
            else
              match skip_ws r with
              | String c' r' =>
                  if (c' =? "}")%char then Some (Object [], r')
                  else
                    match parse_members fuel' (depth + 1) (skip_ws r) with
                    | Some (m, r2) => Some (Object m, r2)
                    | None => None
                    end
              | EmptyString => None
              end
          else if (c =? "[")%char then
            if maxNestingDepth <=? depth then None
            else
              match skip_ws r with
              | String c' r' =>
                  if (c' =? "]")%char then Some (Array [], r')
                  else
                    match parse_elements fuel' (depth + 1) (skip_ws r) with
                    | Some (l, r2) => Some (Array l, r2)
                    | None => None
                    end
              | EmptyString => None
              end
          else if (c =? dquote)%char then
            match scan_string r with
            | Some (t, r') => Some (Str t, r')
            | None => None
            end
          else if (c =? "t")%char then literal "true" (Bool true) s
          else if (c =? "f")%char then literal "false" (Bool false) s
          else if (c =? "n")%char then literal "null" Null s
          else
            match scan_number s with
            | Some (n, r') => Some (Number n, r')
            | None => None
            end
      end
  end

with parse_elements (fuel : nat) (depth : Z) (s : string) : option (list value * string) :=
  match fuel with
  | O => None
  | S fuel' =>
      match parse_value fuel' depth s with
      | Some (v, r) =>
          match skip_ws r with
          | String c r' =>
              if (c =? ",")%char then
                match parse_elements fuel' depth (skip_ws r') with
                | Some (l, r2) => Some (v :: l, r2)
                | None => None
                end
              else if (c =? "]")%char then Some ([v], r')
              else None
          | EmptyString => None
          end
      | None => None
      end
  end

with parse_members (fuel : nat) (depth : Z) (s : string) : option (list (string * value) * string) :=
  match fuel with
  | O => None
  | S fuel' =>
      match s with
      | String q r0 =>
          if (q =? dquote)%char then
            match scan_string r0 with
            | Some (k, r1) =>
                match skip_ws r1 with
                | String c r2 =>
                    if (c =? ":")%char then
                      match parse_value fuel' depth (skip_ws r2) with
                      | Some (v, r3) =>
                          match skip_ws r3 with
                          | String c' r4 =>
                              if (c' =? ",")%char then
                                match parse_members fuel' depth (skip_ws r4) with
                                | Some (m, r5) => Some ((k, v) :: m, r5)
                                | None => None
                                end
                              else if (c' =? "}")%char then Some ([(k, v)], r4)
                              else None
                          | EmptyString => None
                          end
                      | None => None
                      end
                    else None
                | EmptyString => None
                end
            | None => None
            end
          else None
      | EmptyString => None
      end
  end.

(** [checkValid] and the cut into a tree: the whole of [data] is one value
    between optional white space. *)
Definition parse (data : bytes) : option value :=
  match parse_value (S (S (String.length data + String.length data))) 0 (skip_ws data) with
  | Some (v, r) =>
      match skip_ws r with
      | EmptyString => Some v
      | String _ _ => None
      end
  | None => None
  end.

(** [valueInterface]: the tree as a Go value.  A number that overflows
    float64 is an [UnmarshalTypeError]; the first such error is the one
    reported. *)
Fixpoint convert (v : value) : result any :=
  match v with
  | Null => Ok Nil
  | Bool b => Ok (VBool b)
  | Number n =>
      match strconv.ParseFloat (neg n) (mant n) (exp10 n) with
      | Some f => Ok (VFloat64 f)
      | None => Err UnmarshalTypeError
      end
  | Str s => Ok (VString s)
  | Array l =>
      let fix elements (l : list value) : result (list any) :=
        match l with
        | [] => Ok []
        | v :: l' =>
            match convert v, elements l' with
            | inl x, inl xs => Ok (x :: xs)
            | inr e, _ => Err e
            | _, inr e => Err e
            end
        end in
      match elements l with
      | inl xs => Ok (VSlice xs)
      | inr e => Err e
      end
  | Object m =>
      let fix members (m : list (string * value)) : result (list (string * any)) :=
        match m with
        | [] => Ok []
        | (k, v) :: m' =>
            match convert v, members m' with
            | inl x, inl xs => Ok ((k, x) :: xs)
            | inr e, _ => Err e
            | _, inr e => Err e
            end
        end in
      match members m with
      | inl xs => Ok (VMap xs)
      | inr e => Err e
      end
  end.

(** [Unmarshal(data, &v)] with [var v interface{}]: the value left in [v]. *)
Definition Unmarshal (data : bytes) : result any :=
  match parse data with
  | Some v => convert v
  | None => Err SyntaxError
  end.

(** *** Encoding *)

Definition hex : string := "0123456789abcdef".

Definition hex_digit (i : Z) : ascii :=
  match String.get (Z.to_nat i) hex with
  | Some c => c
  | None => "0"%char
  end.

(** [htmlSafeSet[b]] for [b < utf8.RuneSelf]: the bytes copied as they are. *)
Definition htmlSafeSet (b : Z) : bool :=
  (32 <=? b) && negb (b =? 34) && negb (b =? 38) && negb (b =? 60)
  && negb (b =? 62) && negb (b =? 92).

(** What [appendString] writes for a byte below [utf8.RuneSelf] that is not
    in [htmlSafeSet]. *)
Definition escape (c : ascii) : string :=
  let b := Z_of_ascii c in
  if (b =? 92) || (b =? 34) then String "\" (String c "")
  else if b =? 8 then "\b"
  else if b =? 12 then "\f"
  else if b =? 10 then "\n"
  else if b =? 13 then "\r"
  else if b =? 9 then "\t"
  else "\u00" ++ String (hex_digit (Z.shiftr b 4)) (String (hex_digit (Z.land b 0xF)) "").

(** What [appendString] writes for a byte below [utf8.RuneSelf]. *)
Definition appendByte (c : ascii) : string :=
  if htmlSafeSet (Z_of_ascii c) then String c "" else escape c.

(** The loop of [appendString(dst, src, escapeHTML = true)]: what is written
    between the quotes.  Each round consumes a byte at least, so [fuel] equal
    to the length of [src] is never used up.  A byte that starts no
    well-formed sequence is written as the six characters of the escape of
    U+FFFD; a release that writes the three bytes of U+FFFD instead produces
    a text that decodes to the same string. *)
Fixpoint appendString_loop (fuel : nat) (src : string) : string :=
  match fuel with
  | O => ""
  | S fuel' =>
      match src with
      | EmptyString => ""
      | String c r =>
          if Z_of_ascii c <? utf8.RuneSelf then
            appendByte c ++ appendString_loop fuel' r
          else
            let '(rr, size) := utf8.DecodeRune src in
            if (rr =? utf8.RuneError) && (size =? 1)%nat
            then "\uff" ++ "fd" ++ appendString_loop fuel' (drop size src)
            else if (rr =? 0x2028) || (rr =? 0x2029)
            then "\u202" ++ String (hex_digit (Z.land rr 0xF)) ""
                 ++ appendString_loop fuel' (drop size src)
            else take size src ++ appendString_loop fuel' (drop size src)
      end
  end.

Definition appendString (src : string) : bytes :=
  String dquote (appendString_loop (String.length src) src ++ String dquote "").

(** [Marshal(nil)] *)
Definition Marshal_nil : result bytes := Ok "null".

(** [Marshal(b)] for a [bool] *)
Definition Marshal_bool (b : bool) : result bytes := Ok (if b then "true" else "false").

(** [Marshal(i)] for an [int] or an [int64] *)
Definition Marshal_int (i : Z) : result bytes := Ok (strconv.FormatInt i).

(** [Marshal(s)] for a [string] *)
Definition Marshal_string (s : string) : result bytes := Ok (appendString s).

(** [Marshal(f)] for a [float64].  The digits of a finite value come from
    [strconv.AppendFloat] with the shortest representation that reads back
    as [f]; that function is left open. *)
Definition Marshal_float64 (appendFloat : float64 -> string) (f : float64) : result bytes :=
  if f64.IsInf f || f64.IsNaN f then Err UnsupportedValueError
  else Ok (appendFloat f).

(** [Marshal(m)] for a [json.Marshaler], given what [m.MarshalJSON()]
    returned. *)
Definition Marshal_Marshaler (r : result bytes) : result bytes :=
  match r with
  | inl b => Ok b
  | inr e => Err (MarshalerError e)
  end.

End json.

(** ** Package fmt: the verb [%T] *)

Module fmt.

(** The name [%T] prints for the dynamic type of a value. *)
Definition T (v : any) : string :=
  match v with
  | Nil => "<nil>"
  | VBool _ => "bool"
  | VInt64 _ => "int64"
  | VFloat64 _ => "float64"
  | VString _ => "string"
  | VBytes _ => "[]uint8"
  | VTime _ => "time.Time"
  | VSlice _ => "[]interface {}"
  | VMap _ => "map[string]interface {}"
  | Other n => n
  end.

(** [Sprintf] for formats whose only verb is [%T]. *)
Fixpoint Sprintf (format : string) (a : list any) : string :=
  match format with
  | String c r =>
      match r with
      | String c' r' =>
          if (c =? "%")%char && (c' =? "T")%char then
            match a with
            | v :: a' => T v ++ Sprintf r' a'
            | [] => "%!T(MISSING)" ++ Sprintf r' []
            end
          else String c (Sprintf r a)
      | EmptyString => String c ""
      end
  | EmptyString => ""
  end.

Definition Errorf (format : string) (a : list any) : error :=
  Errorf (Sprintf format a).

End fmt.

Definition is_nil (v : any) : bool :=
  match v with Nil => true | _ => false end.

(** ** Package nnz *)

Module nnz.

(** The receiver [b] of a pointer method, as an argument of [fmt.Errorf]:
    a value whose dynamic type is the pointer type. *)
Definition ptr (type_name : string) : any := Other ("*nnz." ++ type_name).

Module Bool.

Definition t : Type := bool.

Definition Scan (b : t) (v : any) : t * option error :=
  if is_nil v then (false, None)
  else
    match v with
    | VBool v => (v, None)
    | _ => (b, Some (fmt.Errorf "nnz: scanning %T, got %T" [ptr "Bool"; v]))
    end.

Definition Value (b : t) : result any :=
  if Bool.eqb b false then Ok Nil else Ok (VBool b).

Definition MarshalJSON (b : t) : result bytes :=
  if Bool.eqb b false then json.Marshal_nil else json.Marshal_bool b.

(** In the last branch [v] is the variable of the [if] statement, a [bool]
    holding the zero value, not the decoded value. *)
Definition UnmarshalJSON (b : t) (data : bytes) : t * option error :=
  match json.Unmarshal data with
  | inr err => (b, Some err)
  | inl v =>
      if is_nil v then (false, None)
      else
        match v with
        | VBool v => (v, None)
        | _ =>
            let v := VBool false in
            (b, Some (fmt.Errorf "nnz: unmarshaling %T, got %T" [ptr "Bool"; v]))
        end
  end.

End Bool.

Module Int.

Definition t : Type := Z.

Definition Scan (i : t) (v : any) : t * option error :=
  if is_nil v then (0, None)
  else
    match v with
    | VInt64 v => (int v, None)
    | _ => (i, Some (fmt.Errorf "nnz: scanning %T, got %T" [ptr "Int"; v]))
    end.

Definition Value (i : t) : result any :=
  if i =? 0 then Ok Nil else Ok (VInt64 (int64 i)).

Definition MarshalJSON (i : t) : result bytes :=
  if i =? 0 then json.Marshal_nil else json.Marshal_int (int i).

Definition UnmarshalJSON (i : t) (data : bytes) : t * option error :=
  match json.Unmarshal data with
  | inr err => (i, Some err)
  | inl v =>
      if is_nil v then (0, None)
      else
        match v with
        | VFloat64 v => (f64.to_int64 v, None)
        | _ =>
            let v := VFloat64 f64.zero in
            (i, Some (fmt.Errorf "nnz: unmarshaling %T, got %T" [ptr "Int"; v]))
        end
  end.

End Int.

Module Int64.

Definition t : Type := Z.

Definition Scan (i : t) (v : any) : t * option error :=
  if is_nil v then (0, None)
  else
    match v with
    | VInt64 v => (int64 v, None)
    | _ => (i, Some (fmt.Errorf "nnz: scanning %T, got %T" [ptr "Int64"; v]))
    end.

Definition Value (i : t) : result any :=
  if i =? 0 then Ok Nil else Ok (VInt64 (int64 i)).

Definition MarshalJSON (i : t) : result bytes :=
  if i =? 0 then json.Marshal_nil else json.Marshal_int (int64 i).

Definition UnmarshalJSON (i : t) (data : bytes) : t * option error :=
  match json.Unmarshal data with
  | inr err => (i, Some err)
  | inl v =>
      if is_nil v then (0, None)
      else
        match v with
        | VFloat64 v => (f64.to_int64 v, None)
        | _ =>
            let v := VFloat64 f64.zero in
            (i, Some (fmt.Errorf "nnz: unmarshaling %T, got %T" [ptr "Int64"; v]))
        end
  end.

End Int64.

Module Float64.

Definition t : Type := float64.

Definition Scan (f : t) (v : any) : t * option error :=
  if is_nil v then (f64.zero, None)
  else
    match v with
    | VFloat64 v => (v, None)
    | _ => (f, Some (fmt.Errorf "nnz: scanning %T, got %T" [ptr "Float64"; v]))
    end.

Definition Value (f : t) : result any :=
  if f64.eqb f f64.zero then Ok Nil else Ok (VFloat64 f).

Definition MarshalJSON (appendFloat : float64 -> string) (f : t) : result bytes :=
  if f64.eqb f f64.zero then json.Marshal_nil
  else json.Marshal_float64 appendFloat f.

Definition UnmarshalJSON (f : t) (data : bytes) : t * option error :=
  match json.Unmarshal data with
  | inr err => (f, Some err)
  | inl v =>
      if is_nil v then (f64.zero, None)
      else
        match v with
        | VFloat64 v => (v, None)
        | _ =>
            let v := VFloat64 f64.zero in
            (f, Some (fmt.Errorf "nnz: unmarshaling %T, got %T" [ptr "Float64"; v]))
        end
  end.

End Float64.

Module String.

Definition t : Type := string.

Definition Scan (s : t) (v : any) : t * option error :=
  if is_nil v then ("", None)
  else
    match v with
    | VBytes v => (v, None)
    | VString v => (v, None)
    | _ => (s, Some (fmt.Errorf "nnz: scanning %T, got %T" [ptr "String"; v]))
    end.

Definition Value (s : t) : result any :=
  if (s =? "")%string then Ok Nil else Ok (VString s).

Definition MarshalJSON (s : t) : result bytes :=
  if (s =? "")%string then json.Marshal_nil else json.Marshal_string s.

Definition UnmarshalJSON (s : t) (data : bytes) : t * option error :=
  match json.Unmarshal data with
  | inr err => (s, Some err)
  | inl v =>
      if is_nil v then ("", None)
      else
        match v with
        | VString v => (v, None)
        | _ =>
            let v := VString "" in
            (s, Some (fmt.Errorf "nnz: unmarshaling %T, got %T" [ptr "String"; v]))
        end
  end.

End String.

Module Time.

Definition t : Type := time.Time.

(** [var zt time.Time] *)
Definition zt : time.Time := time.zero.

Definition Scan (t0 : t) (v : any) : t * option error :=
  if is_nil v then (zt, None)
  else
    match v with
    | VTime v => (v, None)
    | _ => (t0, Some (fmt.Errorf "nnz: scanning %T, got %T" [ptr "Time"; v]))
    end.

Definition Value (t0 : t) : result any :=
  let tm := t0 in
  if time.IsZero tm then Ok Nil else Ok (VTime tm).

Definition UnmarshalJSON (t0 : t) (data : bytes) : t * option error :=
  match json.Unmarshal data with
  | inr err => (t0, Some err)
  | inl v =>
      if is_nil v then (zt, None)
      else
        match v with
        | VTime v => (v, None)
        | _ =>
            let v := VTime time.zero in
            (t0, Some (fmt.Errorf "nnz: unmarshaling %T, got %T" [ptr "Time"; v]))
        end
  end.

Section Codecs.

(** [time.Time.MarshalJSON], [time.Parse] and the local time zone are inputs:
    the methods below pass their results on unchanged. *)
Variable time_MarshalJSON : time.Time -> result bytes.
Variable time_Parse : string -> string -> result time.Time.
Variable localOffset : Z -> Z.

Definition RFC3339 : string := "2006-01-02T15:04:05Z07:00".

Definition MarshalJSON (t0 : t) : result bytes :=
  let tm := t0 in
  if time.IsZero tm then json.Marshal_nil
  else json.Marshal_Marshaler (time_MarshalJSON t0).

Definition UnmarshalText (t0 : t) (data : bytes) : t * option error :=
  if (data =? "")%string then (zt, None)
  else
    match time_Parse RFC3339 data with
    | inr err => (t0, Some err)
    | inl nt => (nt, None)
    end.

Definition GobEncode (t0 : t) : result bytes :=
  time.MarshalBinary localOffset t0.

Definition GobDecode (t0 : t) (data : bytes) : t * option error :=
  match time.UnmarshalBinary localOffset data with
  | inr err => (t0, Some err)
  | inl tm => (tm, None)
  end.

End Codecs.

End Time.

End nnz.

(** ** The six wrappers as one family

    The four methods every wrapper has, indexed by the wrapper type, so that
    a property "for every wrapper type" is a statement over [wrapper]. *)

Inductive wrapper : Type := WBool | WInt | WInt64 | WFloat64 | WString | WTime.

Definition carrier (w : wrapper) : Type :=
  match w with
  | WBool => nnz.Bool.t
  | WInt => nnz.Int.t
  | WInt64 => nnz.Int64.t
  | WFloat64 => nnz.Float64.t
  | WString => nnz.String.t
  | WTime => nnz.Time.t
  end.

(** The zero value of the underlying primitive type. *)
Definition zero (w : wrapper) : carrier w :=
  match w with
  | WBool => false
  | WInt => 0
  | WInt64 => 0
  | WFloat64 => f64.zero
  | WString => ""
  | WTime => time.zero
  end.

(** Whether a primitive value is zero: [==] with the zero value, and for a
    timestamp [IsZero], the zero instant. *)
Definition is_zero (w : wrapper) : carrier w -> bool :=
  match w with
  | WBool => fun b => Bool.eqb b false
  | WInt => fun i => i =? 0
  | WInt64 => fun i => i =? 0
  | WFloat64 => fun f => f64.eqb f f64.zero
  | WString => fun s => (s =? "")%string
  | WTime => time.IsZero
  end.

(** The values the Go type has: an [int] or [int64] lies in the 64-bit
    range. *)
Definition well_formed (w : wrapper) : carrier w -> Prop :=
  match w with
  | WInt => in_int64
  | WInt64 => in_int64
  | _ => fun _ => True
  end.

(** What [%T] prints for the receiver of a pointer method. *)
Definition declared_type (w : wrapper) : string :=
  match w with
  | WBool => "*nnz.Bool"
  | WInt => "*nnz.Int"
  | WInt64 => "*nnz.Int64"
  | WFloat64 => "*nnz.Float64"
  | WString => "*nnz.String"
  | WTime => "*nnz.Time"
  end.

Definition Scan (w : wrapper) : carrier w -> any -> carrier w * option error :=
  match w with
  | WBool => nnz.Bool.Scan
  | WInt => nnz.Int.Scan
  | WInt64 => nnz.Int64.Scan
  | WFloat64 => nnz.Float64.Scan
  | WString => nnz.String.Scan
  | WTime => nnz.Time.Scan
  end.

Definition Value (w : wrapper) : carrier w -> result any :=
  match w with
  | WBool => nnz.Bool.Value
  | WInt => nnz.Int.Value
  | WInt64 => nnz.Int64.Value
  | WFloat64 => nnz.Float64.Value
  | WString => nnz.String.Value
  | WTime => nnz.Time.Value
  end.

Definition UnmarshalJSON (w : wrapper) : carrier w -> bytes -> carrier w * option error :=
  match w with
  | WBool => nnz.Bool.UnmarshalJSON
  | WInt => nnz.Int.UnmarshalJSON
  | WInt64 => nnz.Int64.UnmarshalJSON
  | WFloat64 => nnz.Float64.UnmarshalJSON
  | WString => nnz.String.UnmarshalJSON
  | WTime => nnz.Time.UnmarshalJSON
  end.

Definition MarshalJSON (appendFloat : float64 -> string)
    (time_MarshalJSON : time.Time -> result bytes) (w : wrapper) :
    carrier w -> result bytes :=
  match w with
  | WBool => nnz.Bool.MarshalJSON
  | WInt => nnz.Int.MarshalJSON
  | WInt64 => nnz.Int64.MarshalJSON
  | WFloat64 => nnz.Float64.MarshalJSON appendFloat
  | WString => nnz.String.MarshalJSON
  | WTime => nnz.Time.MarshalJSON time_MarshalJSON
  end.

(** The dynamic types [Scan] accepts for a wrapper. *)
Definition accepted (w : wrapper) (v : any) : bool :=
  match w, v with
  | _, Nil => true
  | WBool, VBool _ => true
  | WInt, VInt64 _ => true
  | WInt64, VInt64 _ => true
  | WFloat64, VFloat64 _ => true
  | WString, VBytes _ => true
  | WString, VString _ => true
  | WTime, VTime _ => true
  | _, _ => false
  end.

(** The kind of JSON value [UnmarshalJSON] is meant to take for a wrapper:
    a boolean, a number, or a string. *)
Definition expected_kind (w : wrapper) (v : any) : bool :=
  match w, v with
  | _, Nil => true
  | WBool, VBool _ => true
  | WInt, VFloat64 _ => true
  | WInt64, VFloat64 _ => true
  | WFloat64, VFloat64 _ => true
  | WString, VString _ => true
  | WTime, VString _ => true
  | _, _ => false
  end.

(** ** Text helpers for the statements *)

(** [s] between double quotes: a JSON string literal when [s] needs no
    escape. *)
Definition quoted (s : string) : string := String dquote (s ++ String dquote "").

(** [contains needle hay]: [needle] occurs in [hay]. *)
Fixpoint contains (needle hay : string) : bool :=
  String.prefix needle hay
  || match hay with
     | String _ r => contains needle r
     | EmptyString => false
     end.

(** An error whose message mentions [name]. *)
Definition mentions (e : error) (name : string) : bool :=
  match e with
  | Errorf msg => contains name msg
  | _ => false
  end.

(** ** A reader of RFC 3339 timestamps

    [YYYY-MM-DDThh:mm:ss], an optional fraction of a second, and [Z] or a
    numeric offset.  It produces the [time.Time] that [time.Date] builds, and
    serves as an instance of the parser [Time.UnmarshalText] is given.  It is
    not [time.Parse]: it wants two digits for the hour and takes a point
    with no digits after it; no theorem is about it. *)

Module rfc3339.

Definition num2 (a b : ascii) : option Z :=
  if json.is_digit a && json.is_digit b
  then Some (10 * json.digit_val a + json.digit_val b) else None.

Definition isLeap (y : Z) : bool :=
  (y mod 4 =? 0) && (negb (y mod 100 =? 0) || (y mod 400 =? 0)).

Definition daysBefore (m : Z) : Z :=
  nth (Z.to_nat (m - 1)) [0; 31; 59; 90; 120; 151; 181; 212; 243; 273; 304; 334] 0.

Definition daysIn (m y : Z) : Z :=
  if (m =? 2) && isLeap y then 29 else daysBefore (m + 1) - daysBefore m + (if m =? 12 then 365 else 0).

(** Days from January 1 of year 1 to the given date. *)
Definition daysSinceEpoch (y m d : Z) : Z :=
  365 * (y - 1) + (y - 1) / 4 - (y - 1) / 100 + (y - 1) / 400
  + daysBefore m + (if isLeap y && (2 <? m) then 1 else 0) + (d - 1).

(** A fraction [.ddd...] in nanoseconds (digits past the ninth are dropped),
    and what follows it. *)
Fixpoint fraction (scale : Z) (acc : Z) (s : string) : Z * string :=
  match s with
  | String c r =>
      if json.is_digit c then fraction (scale / 10) (acc + scale * json.digit_val c) r
      else (acc, s)
  | EmptyString => (acc, s)
  end.

(** The zone: [Z], or [+hh:mm] / [-hh:mm] as seconds east of UTC. *)
Definition zone (s : string) : option (option Z) :=
  match s with
  | String z EmptyString => if (z =? "Z")%char then Some None else None
  | String sg (String h1 (String h2 (String c (String m1 (String m2 EmptyString))))) =>
      if ((sg =? "+")%char || (sg =? "-")%char) && (c =? ":")%char then
        match num2 h1 h2, num2 m1 m2 with
        | Some h, Some m =>
            if (h <? 24) && (m <? 60)
            then Some (Some ((if (sg =? "-")%char then -1 else 1) * (h * 3600 + m * 60)))
            else None
        | _, _ => None
        end
      else None
  | _ => None
  end.

Definition Parse (localOffset : Z -> Z) (layout value : string) : result time.Time :=
  match value with
  | String y1 (String y2 (String y3 (String y4 (String d1
   (String mo1 (String mo2 (String d2 (String da1 (String da2 (String sep
   (String h1 (String h2 (String c1 (String mi1 (String mi2 (String c2
   (String s1 (String s2 rest)))))))))))))))))) =>
      match num2 y1 y2, num2 y3 y4, num2 mo1 mo2, num2 da1 da2,
            num2 h1 h2, num2 mi1 mi2, num2 s1 s2 with
      | Some yh, Some yl, Some mo, Some da, Some h, Some mi, Some s =>
          let y := 100 * yh + yl in
          let '(ns, rest) :=
            match rest with
            | String dot r =>
                if (dot =? ".")%char then fraction 100000000 0 r else (0, rest)
            | EmptyString => (0, rest)
            end in
          if (d1 =? "-")%char && (d2 =? "-")%char && (sep =? "T")%char
             && (c1 =? ":")%char && (c2 =? ":")%char
             && (1 <=? mo) && (mo <=? 12) && (1 <=? da) && (da <=? daysIn mo y)
             && (h <? 24) && (mi <? 60) && (s <? 60)
          then
            let abs := daysSinceEpoch y mo da * 86400 + h * 3600 + mi * 60 + s in
            match zone rest with
            | Some None => Ok (time.mkTime ns abs None)
            | Some (Some off) =>
                let t := time.mkTime ns (abs - off) None in
                if off =? localOffset (time.unixSec t)
                then Ok (time.setLoc t (Some time.Local))
                else Ok (time.setLoc t (Some (time.FixedZone "" off)))
            | None => Err (ParseError value)
            end
          else Err (ParseError value)
      | _, _, _, _, _, _, _ => Err (ParseError value)
      end
  | _ => Err (ParseError value)
  end.

End rfc3339.

(** ** The decoding calls

    A call of [Scan] or [UnmarshalJSON] on a wrapper, or of [UnmarshalText]
    on a [Time], with its input. *)

Inductive decoding : wrapper -> Type :=
| ByScan (w : wrapper) (v : any) : decoding w
| ByUnmarshalJSON (w : wrapper) (data : bytes) : decoding w
| ByUnmarshalText (data : bytes) : decoding WTime.

Definition decode (time_Parse : string -> string -> result time.Time)
    (w : wrapper) (c : decoding w) : carrier w -> carrier w * option error :=
  match c in decoding w return carrier w -> carrier w * option error with
  | ByScan w v => fun old => Scan w old v
  | ByUnmarshalJSON w data => fun old => UnmarshalJSON w old data
  | ByUnmarshalText data => fun old => nnz.Time.UnmarshalText time_Parse old data
  end.

(** The dynamic types [json.Unmarshal] leaves in an [interface{}]: nil,
    [bool], [float64], [string], [[]interface{}], [map[string]interface{}]. *)
Definition json_kind (v : any) : bool :=
  match v with
  | Nil | VBool _ | VFloat64 _ | VString _ | VSlice _ | VMap _ => true
  | _ => false
  end.

(** The type [UnmarshalJSON] asserts the decoded value to have, and whether
    a value passes the assertion (or is nil). *)
Definition asserted_type (w : wrapper) : string :=
  match w with
  | WBool => "bool"
  | WInt | WInt64 | WFloat64 => "float64"
  | WString => "string"
  | WTime => "time.Time"
  end.

Definition asserted (w : wrapper) (v : any) : bool :=
  match w, v with
  | _, Nil => true
  | WBool, VBool _ => true
  | (WInt | WInt64 | WFloat64), VFloat64 _ => true
  | WString, VString _ => true
  | WTime, VTime _ => true
  | _, _ => false
  end.

(** The values that the JSON text of a wrapper carries exactly: every
    [Bool]; an [Int] or [Int64] of magnitude at most [2^53], the integers a
    float64 holds without gaps; a [String] of well-formed UTF-8; a finite
    [Float64] whose digits, as [strconv] writes them, read back as the same
    float64 (what its shortest formatting is for).  No [Time] is listed. *)
Definition json_exact (appendFloat : float64 -> string) (w : wrapper) :
    carrier w -> Prop :=
  match w with
  | WBool => fun _ => True
  | WInt => fun i => - 2 ^ 53 <= i <= 2 ^ 53
  | WInt64 => fun i => - 2 ^ 53 <= i <= 2 ^ 53
  | WString => fun s => utf8.ValidString s = true
  | WFloat64 => fun f =>
      f64.IsInf f = false /\ f64.IsNaN f = false
      /\ json.Unmarshal (appendFloat f) = Ok (VFloat64 f)
  | WTime => fun _ => False
  end.

(** The float64 1.5 *)
Definition one_and_a_half : float64 := Eval vm_compute in f64.of_decimal false 15 (-1).

(** The text of a timestamp, and the [time.Time] it denotes. *)
Definition stamp_text : string := "2023-01-02T15:04:05Z".
Definition stamp : time.Time := time.mkTime 0 63808268645 None.

(** ** Driver values and JSON texts

    Notions used to state what the methods do on every input. *)

(** A driver value whose [int64] lies in the 64-bit range. *)
Definition driver_value_ok (v : any) : Prop :=
  match v with VInt64 n => in_int64 n | _ => True end.

(** The driver value as [Value] hands it out again: [String.Scan] converts a
    [[]byte] with [String(v)], and [String.Value] returns a [string]. *)
Definition as_written (v : any) : any :=
  match v with VBytes b => VString b | _ => v end.

(** The wrappers whose JSON text is computed here in full: that of a
    [Float64] and of a [Time] comes from a function left open. *)
Definition json_concrete (w : wrapper) : bool :=
  match w with WFloat64 | WTime => false | _ => true end.

(** A text of white space only, the empty text included. *)
Fixpoint blank (s : string) : bool :=
  match s with
  | String c r => json.isSpace c && blank r
  | EmptyString => true
  end.

(** A timestamp in the zone one hour east of UTC. *)
Definition stamp_east : time.Time :=
  time.mkTime 0 63808268645 (Some (time.FixedZone "CET" 3600)).

(** * Properties *)

(** ** Auxiliary facts *)

Lemma wrap_signed_64_id (z : Z) : in_int64 z -> wrap_signed 64 z = z.
Proof.
  unfold in_int64, wrap_signed. intros H.
  change (2 ^ (64 - 1)) with 9223372036854775808.
  change (2 ^ 64) with 18446744073709551616.
  change (2 ^ 63) with 9223372036854775808 in H.
  rewrite Z.mod_small; lia.
Qed.

Lemma prefix_app (n r : string) : String.prefix n (n ++ r) = true.
Proof.
  induction n as [|c n IH]; simpl; [destruct r; reflexivity|].
  destruct (ascii_dec c c); [assumption|congruence].
Qed.

Lemma contains_unfold (n h : string) :
  contains n h = String.prefix n h
                 || match h with String _ r => contains n r | EmptyString => false end.
Proof. destruct h; reflexivity. Qed.

Lemma contains_app (pre n post : string) : contains n (pre ++ n ++ post) = true.
Proof.
  induction pre as [|c pre IH].
  - rewrite contains_unfold. simpl. rewrite prefix_app. reflexivity.
  - rewrite contains_unfold. simpl. rewrite IH. apply orb_true_r.
Qed.

(** [json.Unmarshal] into an [interface{}] yields nil, a [bool], a
    [float64], a [string], a slice or a map: never a [time.Time]. *)
Lemma convert_kind (t : json.value) (v : any) :
  json.convert t = Ok v -> json_kind v = true.
Proof.
  destruct t as [| b | n | s | l | m]; simpl.
  - intros [= <-]; reflexivity.
  - intros [= <-]; reflexivity.
  - destruct (strconv.ParseFloat _ _ _); [intros [= <-]; reflexivity | discriminate].
  - intros [= <-]; reflexivity.
  - match goal with |- match ?x with _ => _ end = _ -> _ => destruct x end;
      [intros [= <-]; reflexivity | discriminate].
  - match goal with |- match ?x with _ => _ end = _ -> _ => destruct x end;
      [intros [= <-]; reflexivity | discriminate].
Qed.

Lemma Unmarshal_kind (data : bytes) (v : any) :
  json.Unmarshal data = Ok v -> json_kind v = true.
Proof.
  unfold json.Unmarshal. destruct (json.parse data); [apply convert_kind | discriminate].
Qed.

(** The integer part of a finite float64, as a quotient rounded toward
    zero. *)
Lemma trunc_quot (s : bool) (m : positive) (e : Z) :
  f64.trunc (S754_finite s m e)
  = Some (Z.quot (cond_Zopp s (Zpos m) * 2 ^ Z.max 0 e) (2 ^ Z.max 0 (- e))).
Proof.
  unfold f64.trunc. f_equal.
  destruct (0 <=? e) eqn:E.
  - apply Z.leb_le in E.
    rewrite (Z.max_r 0 e), (Z.max_l 0 (- e)) by lia.
    rewrite Z.quot_1_r. destruct s; unfold cond_Zopp; [|reflexivity].
    symmetry; apply Z.mul_opp_l.
  - apply Z.leb_gt in E.
    rewrite (Z.max_l 0 e), (Z.max_r 0 (- e)) by lia.
    rewrite Z.mul_1_r.
    assert (P : 0 < 2 ^ (- e)) by (apply Z.pow_pos_nonneg; lia).
    destruct s; simpl.
    + change (Z.neg m) with (- Z.pos m).
      rewrite Z.quot_opp_l by lia. rewrite Z.quot_div_nonneg by lia. reflexivity.
    + rewrite Z.quot_div_nonneg by lia. reflexivity.
Qed.

Lemma to_int64_quot (s : bool) (m : positive) (e : Z) :
  let q := Z.quot (cond_Zopp s (Zpos m) * 2 ^ Z.max 0 e) (2 ^ Z.max 0 (- e)) in
  in_int64 q -> f64.to_int64 (S754_finite s m e) = q.
Proof.
  intros q H. unfold f64.to_int64. rewrite trunc_quot. fold q.
  unfold in_int64 in H.
  destruct (Z.leb_spec (- 2 ^ 63) q); [|lia].
  destruct (Z.ltb_spec q (2 ^ 63)); [reflexivity|lia].
Qed.

(** *** Decimal digits: what [FormatInt] writes, the scanner reads *)

Lemma digit_char_facts (d : Z) :
  0 <= d <= 9 ->
  json.is_digit (strconv.digit_char d) = true
  /\ json.digit_val (strconv.digit_char d) = d.
Proof.
  intros H.
  assert (C : d = 0 \/ d = 1 \/ d = 2 \/ d = 3 \/ d = 4 \/ d = 5 \/ d = 6 \/ d = 7
              \/ d = 8 \/ d = 9) by lia.
  repeat (destruct C as [-> | C]; [split; reflexivity|]). subst; split; reflexivity.
Qed.

(** Reading the digits of [u] continues the number read so far. *)
Lemma digits_formatBits (fuel : nat) :
  forall u acc, 0 <= u < 10 ^ Z.of_nat (S fuel) ->
  exists k, 1 <= k /\
    forall a n, json.digits a n (strconv.formatBits (S fuel) u acc)
                = json.digits (a * 10 ^ k + u) (n + k) acc.
Proof.
  induction fuel as [|fuel IH]; intros u acc H;
    cbn [strconv.formatBits]; destruct (Z.ltb_spec u 10) as [L|L].
  - exists 1. split; [lia|]. intros a n. cbn [json.digits].
    destruct (digit_char_facts u ltac:(lia)) as [-> ->].
    f_equal. lia.
  - change (10 ^ Z.of_nat 1) with 10 in H. lia.
  - exists 1. split; [lia|]. intros a n. cbn [json.digits].
    destruct (digit_char_facts u ltac:(lia)) as [-> ->].
    f_equal. lia.
  - rewrite Nat2Z.inj_succ, Z.pow_succ_r in H by lia.
    destruct (IH (u / 10) (String (strconv.digit_char (u mod 10)) acc)) as [k [K E]].
    { split; [apply Z.div_pos; lia | apply Z.div_lt_upper_bound; lia]. }
    exists (k + 1). split; [lia|]. intros a n. rewrite E. cbn [json.digits].
    destruct (digit_char_facts (u mod 10)) as [-> ->].
    { pose proof (Z.mod_pos_bound u 10 ltac:(lia)). lia. }
    rewrite Z.pow_add_r by lia. f_equal; [|lia].
    pose proof (Z.div_mod u 10 ltac:(lia)). lia.
Qed.

(** The text of a positive number starts with a digit other than 0. *)
Lemma formatBits_head (fuel : nat) :
  forall u acc, 0 < u < 10 ^ Z.of_nat (S fuel) ->
  exists d r, 1 <= d <= 9
              /\ strconv.formatBits (S fuel) u acc = String (strconv.digit_char d) r.
Proof.
  induction fuel as [|fuel IH]; intros u acc H;
    cbn [strconv.formatBits]; destruct (Z.ltb_spec u 10) as [L|L].
  - exists u, acc. split; [lia|reflexivity].
  - change (10 ^ Z.of_nat 1) with 10 in H. lia.
  - exists u, acc. split; [lia|reflexivity].
  - rewrite Nat2Z.inj_succ, Z.pow_succ_r in H by lia.
    apply IH. split; [apply Z.div_str_pos; lia | apply Z.div_lt_upper_bound; lia].
Qed.

Lemma nonzero_digit_char (d : Z) :
  1 <= d <= 9 ->
  let c := strconv.digit_char d in
  json.isSpace c = false
  /\ (c =? "0")%char = false
  /\ (c =? "-")%char = false
  /\ forall fuel depth r,
       json.parse_value (S fuel) depth (String c r)
       = match json.scan_number (String c r) with
         | Some (n, r') => Some (json.Number n, r')
         | None => None
         end.
Proof.
  intros H.
  assert (C : d = 1 \/ d = 2 \/ d = 3 \/ d = 4 \/ d = 5 \/ d = 6 \/ d = 7
              \/ d = 8 \/ d = 9) by lia.
  repeat (destruct C as [-> | C]; [repeat split|]). subst; repeat split.
Qed.

Lemma scan_int_formatBits (ng : bool) (u : Z) :
  0 < u < 10 ^ 20 ->
  json.scan_int ng (strconv.formatBits 20 u "") = Some (json.mkNumber ng u 0, "").
Proof.
  intros H.
  destruct (formatBits_head 19 u "" H) as [d [r [D E]]].
  destruct (digits_formatBits 19 u "" ltac:(lia)) as [k [K G]].
  specialize (G 0 0). rewrite E in *.
  destruct (nonzero_digit_char d D) as [_ [Z0 _]].
  destruct (digit_char_facts d ltac:(lia)) as [I V].
  unfold json.scan_int. rewrite Z0, I.
  cbn [json.digits] in G. rewrite I in G.
  replace (10 * 0 + json.digit_val (strconv.digit_char d))
    with (json.digit_val (strconv.digit_char d)) in G by lia.
  change (0 + 1) with 1 in G. rewrite G. reflexivity.
Qed.

(** The text of a non-zero integer is the JSON number with these digits and
    no exponent. *)
Lemma parse_FormatInt (v : Z) :
  v <> 0 -> - 10 ^ 20 < v < 10 ^ 20 ->
  json.parse (strconv.FormatInt v)
  = Some (json.Number (json.mkNumber (v <? 0) (Z.abs v) 0)).
Proof.
  intros NZ R. unfold strconv.FormatInt, json.parse.
  destruct (Z.ltb_spec v 0) as [N|P].
  - cbn [json.skip_ws].
    change (json.isSpace "-") with false. cbv iota.
    cbn [json.parse_value].
    change (("-" =? "{")%char) with false.
    change (("-" =? "[")%char) with false.
    change (("-" =? dquote)%char) with false.
    change (("-" =? "t")%char) with false.
    change (("-" =? "f")%char) with false.
    change (("-" =? "n")%char) with false.
    cbv iota. unfold json.scan_number.
    change (("-" =? "-")%char) with true. cbv iota.
    rewrite scan_int_formatBits by lia.
    replace (Z.abs v) with (- v) by lia. reflexivity.
  - destruct (formatBits_head 19 v "" ltac:(lia)) as [d [r [D E]]].
    destruct (nonzero_digit_char d D) as [SP [_ [M PV]]].
    rewrite E. cbn [json.skip_ws]. rewrite SP. rewrite PV.
    unfold json.scan_number. rewrite M. rewrite <- E.
    rewrite scan_int_formatBits by lia.
    replace (Z.abs v) with v by lia. reflexivity.
Qed.

(** *** Integers that a float64 holds exactly *)

Lemma digits2_log2 (p : positive) : Z.pos (digits2_pos p) = Z.log2 (Z.pos p) + 1.
Proof.
  induction p as [p IH | p IH |]; cbn [digits2_pos].
  - rewrite Pos2Z.inj_succ, IH, Pos2Z.inj_xI, Z.log2_succ_double by lia. lia.
  - rewrite Pos2Z.inj_succ, IH, Pos2Z.inj_xO, Z.log2_double by lia. lia.
  - reflexivity.
Qed.

Lemma iter_xO (p n : positive) : Z.pos (Pos.iter xO p n) = Z.pos p * 2 ^ Z.pos n.
Proof.
  change (Pos.iter xO p n) with (shift_pos n p).
  rewrite shift_pos_correct. change (Z.pow_pos 2 n) with (2 ^ Z.pos n). lia.
Qed.

(** A mantissa of 53 bits is left as it is by rounding. *)
Lemma round_aux_exact (s : bool) (mz : positive) (ez : Z) :
  Z.pos (digits2_pos mz) = 53 -> -1074 <= ez <= 971 ->
  binary_round_aux 53 1024 s (Z.pos mz) ez loc_Exact = S754_finite s mz ez.
Proof.
  intros D R.
  assert (F : forall l, shr_fexp 53 1024 (Z.pos mz) ez l
                        = (shr_record_of_loc (Z.pos mz) l, ez)).
  { intros l. unfold shr_fexp. cbn [Zdigits2]. rewrite D.
    unfold fexp, emin.
    replace (Z.max (53 + ez - 53) (3 - 1024 - 53) - ez) with 0 by lia.
    reflexivity. }
  unfold binary_round_aux. rewrite F.
  cbn [shr_record_of_loc shr_m loc_of_shr_record round_nearest_even].
  rewrite F. cbn [shr_record_of_loc shr_m].
  destruct (Z.leb_spec ez (1024 - 53)); [reflexivity|lia].
Qed.

Lemma binary_round_small (s : bool) (p : positive) :
  Z.pos p < 2 ^ 53 ->
  exists m e, binary_round 53 1024 s p 0 = S754_finite s m e
              /\ -52 <= e <= 0 /\ Z.pos m = Z.pos p * 2 ^ (- e).
Proof.
  intros B.
  pose proof (digits2_log2 p) as D.
  assert (L : 0 <= Z.log2 (Z.pos p) < 53).
  { split; [apply Z.log2_nonneg|]. apply Z.log2_lt_pow2; lia. }
  unfold binary_round, shl_align.
  replace (fexp 53 1024 (Z.pos (digits2_pos p) + 0)) with (Z.log2 (Z.pos p) - 52)
    by (unfold fexp, emin; lia).
  rewrite Z.sub_0_r.
  destruct (Z.log2 (Z.pos p) - 52) as [|q|q] eqn:E.
  - exists p, 0. split; [|split; [lia|simpl; lia]].
    apply round_aux_exact; lia.
  - lia.
  - exists (Pos.iter xO p q), (Z.neg q). split; [|split; [lia|]].
    + apply round_aux_exact; [|lia].
      rewrite digits2_log2, iter_xO, Z.log2_mul_pow2 by lia. lia.
    + rewrite iter_xO. reflexivity.
Qed.

(** An integer of magnitude at most [2^53] is a float64, and its integer
    part is the integer. *)
Lemma trunc_binary_round (s : bool) (p : positive) :
  Z.pos p <= 2 ^ 53 ->
  f64.trunc (binary_round 53 1024 s p 0) = Some (cond_Zopp s (Z.pos p)).
Proof.
  intros B. destruct (Z.eq_dec (Z.pos p) (2 ^ 53)) as [E|NE].
  - assert (p = 9007199254740992%positive) as -> by (apply Pos2Z.inj; exact E).
    destruct s; reflexivity.
  - destruct (binary_round_small s p) as [m [e [-> [R M]]]]; [lia|].
    unfold f64.trunc. do 2 f_equal.
    destruct (Z.leb_spec 0 e).
    + assert (e = 0) as -> by lia. simpl in M. lia.
    + rewrite M. apply Z.div_mul. apply Z.pow_nonzero; lia.
Qed.

(** The JSON text of such an integer decodes to a float64 that converts back
    to it. *)
Lemma int_text_reads_back (v : Z) :
  v <> 0 -> - 2 ^ 53 <= v <= 2 ^ 53 ->
  exists f, json.Unmarshal (strconv.FormatInt v) = Ok (VFloat64 f)
            /\ f64.to_int64 f = v.
Proof.
  intros NZ R.
  unfold json.Unmarshal. rewrite parse_FormatInt by lia.
  cbn [json.convert json.neg json.mant json.exp10].
  unfold strconv.ParseFloat, f64.of_decimal.
  destruct (Z.abs v) as [|p|p] eqn:A; [lia| |lia].
  change (10 ^ 0) with 1. rewrite Z.mul_1_r.
  assert (B : Z.pos p <= 2 ^ 53) by lia.
  assert (V : cond_Zopp (v <? 0) (Z.pos p) = v).
  { destruct (Z.ltb_spec v 0); simpl; lia. }
  assert (N : binary_normalize f64.prec f64.emax (cond_Zopp (v <? 0) (Z.pos p)) 0 (v <? 0)
              = binary_round 53 1024 (v <? 0) p 0).
  { destruct (v <? 0); reflexivity. }
  rewrite N.
  pose proof (trunc_binary_round (v <? 0) p B) as T. rewrite V in T.
  destruct (binary_round 53 1024 (v <? 0) p 0) as [s0| s0 | | s0 m0 e0] eqn:BR;
    try discriminate T.
  - exists (S754_zero s0). split; [reflexivity|]. unfold f64.to_int64. rewrite T.
    destruct (Z.leb_spec (- 2 ^ 63) v); [|lia].
    destruct (Z.ltb_spec v (2 ^ 63)); [reflexivity|lia].
  - exists (S754_finite s0 m0 e0). split; [reflexivity|]. unfold f64.to_int64. rewrite T.
    destruct (Z.leb_spec (- 2 ^ 63) v); [|lia].
    destruct (Z.ltb_spec v (2 ^ 63)); [reflexivity|lia].
Qed.

(** *** What a JSON number decodes to: a zero or a finite float64 *)

Lemma shr_1_half (r : shr_record) :
  0 <= shr_m r -> shr_m (shr_1 r) = shr_m r / 2.
Proof.
  destruct r as [m r s]. cbn [shr_m]. intros M.
  destruct m as [|[p|p|]|p]; cbn [shr_1 shr_m]; try reflexivity; try lia.
  - rewrite Pos2Z.inj_xI. apply (Z.div_unique _ _ _ 1); lia.
  - rewrite Pos2Z.inj_xO. apply (Z.div_unique _ _ _ 0); lia.
Qed.

Lemma iter_shr_1 (n : positive) :
  forall r, 0 <= shr_m r -> shr_m (iter_pos shr_1 n r) = shr_m r / 2 ^ Z.pos n.
Proof.
  induction n as [n IH | n IH |]; intros r M; cbn [iter_pos].
  - assert (M1 : 0 <= shr_m (shr_1 r))
      by (rewrite shr_1_half by assumption; apply Z.div_pos; lia).
    assert (M2 : 0 <= shr_m (iter_pos shr_1 n (shr_1 r)))
      by (rewrite IH by assumption; apply Z.div_pos; lia).
    rewrite IH, IH, shr_1_half by assumption.
    rewrite !Z.div_div by lia. f_equal.
    replace (Z.pos n~1) with (1 + Z.pos n + Z.pos n) by lia.
    rewrite !Z.pow_add_r by lia. change (2 ^ 1) with 2. ring.
  - assert (M2 : 0 <= shr_m (iter_pos shr_1 n r))
      by (rewrite IH by assumption; apply Z.div_pos; lia).
    rewrite IH, IH by assumption.
    rewrite !Z.div_div by lia. f_equal.
    replace (Z.pos n~0) with (Z.pos n + Z.pos n) by lia.
    rewrite !Z.pow_add_r by lia. ring.
  - rewrite shr_1_half by assumption. reflexivity.
Qed.

Lemma round_nearest_even_step (m : Z) (l : location) :
  round_nearest_even m l = m \/ round_nearest_even m l = m + 1.
Proof.
  destruct l as [|[| |]]; cbn [round_nearest_even]; auto.
  destruct (Z.even m); auto.
Qed.

Lemma shr_nonneg (r : shr_record) (e n : Z) :
  0 <= shr_m r -> 0 <= shr_m (fst (shr r e n)).
Proof.
  intros M. destruct n as [|p|p]; cbn [shr fst]; try exact M.
  rewrite iter_shr_1 by exact M. apply Z.div_pos; [exact M|].
  apply Z.pow_pos_nonneg; lia.
Qed.

Lemma shr_fexp_nonneg (m e : Z) (l : location) :
  0 <= m -> 0 <= shr_m (fst (shr_fexp 53 1024 m e l)).
Proof.
  intros M. unfold shr_fexp. apply shr_nonneg.
  destruct l as [|[| |]]; exact M.
Qed.

(** Rounding a magnitude gives a zero, a finite value or an infinity. *)
Lemma binary_round_aux_not_nan (s : bool) (m e : Z) (l : location) :
  0 <= m -> f64.IsNaN (binary_round_aux 53 1024 s m e l) = false.
Proof.
  intros M. unfold binary_round_aux.
  pose proof (shr_fexp_nonneg m e l M) as N1.
  destruct (shr_fexp 53 1024 m e l) as [r1 e1]. cbn [fst] in N1.
  assert (N2 : 0 <= round_nearest_even (shr_m r1) (loc_of_shr_record r1)).
  { destruct (round_nearest_even_step (shr_m r1) (loc_of_shr_record r1)) as [-> | ->];
      lia. }
  pose proof (shr_fexp_nonneg _ e1 loc_Exact N2) as N3.
  destruct (shr_fexp 53 1024 (round_nearest_even (shr_m r1) (loc_of_shr_record r1))
              e1 loc_Exact) as [r2 e2]. cbn [fst] in N3.
  destruct (shr_m r2) as [|q|q]; [reflexivity| |lia].
  destruct (e2 <=? 1024 - 53); reflexivity.
Qed.

Lemma of_decimal_not_nan (neg : bool) (d e10 : Z) :
  f64.IsNaN (f64.of_decimal neg d e10) = false.
Proof.
  unfold f64.of_decimal. destruct d as [|p|p]; try reflexivity.
  assert (B : forall s q e, f64.IsNaN (binary_round 53 1024 s q e) = false).
  { intros s q e. unfold binary_round.
    destruct (shl_align q e (fexp 53 1024 (Z.pos (digits2_pos q) + e))) as [mz ez].
    apply binary_round_aux_not_nan. lia. }
  assert (N : forall z, f64.IsNaN (binary_normalize f64.prec f64.emax z 0 neg) = false).
  { intros [|q|q]; [reflexivity | apply B | apply B]. }
  destruct e10 as [|k|k]; [apply N | apply N |].
  unfold SFdiv, SFdiv_core_binary.
  match goal with |- context [Z.div_eucl ?a ?b] =>
    pose proof (Z_div_mod a b ltac:(lia)) as DM;
    assert (A : 0 <= a) by
      (match goal with |- 0 <= match ?s with _ => _ end =>
         destruct s eqn:SS; [lia | rewrite <- SS; apply Z.shiftl_nonneg; lia | lia] end);
    destruct (Z.div_eucl a b) as [q r] end.
  apply binary_round_aux_not_nan.
  destruct DM as [DM1 DM2]. nia.
Qed.

Lemma convert_float (t : json.value) (f : float64) :
  json.convert t = Ok (VFloat64 f) -> f64.IsNaN f = false /\ f64.IsInf f = false.
Proof.
  destruct t as [| b | n | s | l | m]; cbn [json.convert]; try discriminate.
  - unfold strconv.ParseFloat.
    pose proof (of_decimal_not_nan (json.neg n) (json.mant n) (json.exp10 n)) as NN.
    destruct (f64.IsInf (f64.of_decimal (json.neg n) (json.mant n) (json.exp10 n)))
      eqn:I; [discriminate|].
    intros [= <-]. split; assumption.
  - match goal with |- match ?x with _ => _ end = _ -> _ => destruct x end; discriminate.
  - match goal with |- match ?x with _ => _ end = _ -> _ => destruct x end; discriminate.
Qed.

(** The float64 that [json.Unmarshal] leaves for a number is a zero or a
    finite value: a number beyond the range is an error, and no text is read
    as a NaN. *)
Lemma Unmarshal_float (data : bytes) (f : float64) :
  json.Unmarshal data = Ok (VFloat64 f) -> f64.IsNaN f = false /\ f64.IsInf f = false.
Proof.
  unfold json.Unmarshal. destruct (json.parse data); [apply convert_float | discriminate].
Qed.

(** *** Bytes and bit fields *)

Ltac divmod := Z.div_mod_to_equations; lia.

Lemma Z_of_ascii_range (c : ascii) : 0 <= Z_of_ascii c < 256.
Proof.
  unfold Z_of_ascii. pose proof (N_ascii_bounded c). lia.
Qed.

Lemma ascii_of_Z_of_ascii (c : ascii) : ascii_of_Z (Z_of_ascii c) = c.
Proof.
  unfold ascii_of_Z, Z_of_ascii. rewrite N2Z.id. apply ascii_N_embedding.
Qed.

Lemma land_shiftl_low (a b k : Z) :
  0 <= k -> 0 <= b < 2 ^ k -> Z.land (Z.shiftl a k) b = 0.
Proof.
  intros K B. apply Z.bits_inj'. intros n N.
  rewrite Z.land_spec, Z.bits_0.
  destruct (Z.lt_ge_cases n k) as [L|G].
  - rewrite Z.shiftl_spec_low by assumption. reflexivity.
  - destruct (Z.eq_dec b 0) as [->|NZ]; [rewrite Z.bits_0; apply andb_false_r|].
    rewrite (Z.bits_above_log2 b n); [apply andb_false_r | lia |].
    apply Z.lt_le_trans with k; [|assumption].
    apply Z.log2_lt_pow2; lia.
Qed.

(** A field shifted above [k] free bits, or-ed with [k] bits, is their sum. *)
Lemma lor_shiftl (a b k : Z) :
  0 <= k -> 0 <= b < 2 ^ k -> Z.lor (Z.shiftl a k) b = a * 2 ^ k + b.
Proof.
  intros K B.
  rewrite <- Z.lxor_lor by (apply land_shiftl_low; assumption).
  rewrite <- Z.add_nocarry_lxor by (apply land_shiftl_low; assumption).
  rewrite Z.shiftl_mul_pow2 by assumption. reflexivity.
Qed.

Lemma lor_tag (tag y k : Z) :
  0 <= k -> 0 <= y < 2 ^ k -> Z.lor (tag * 2 ^ k) y = tag * 2 ^ k + y.
Proof.
  intros K Y. rewrite <- lor_shiftl by assumption.
  rewrite Z.shiftl_mul_pow2 by assumption. reflexivity.
Qed.

Lemma land_mask (a k : Z) : 0 <= k -> Z.land a (2 ^ k - 1) = a mod 2 ^ k.
Proof.
  intros K. rewrite <- Z.land_ones by assumption. f_equal.
  rewrite Z.ones_equiv. lia.
Qed.

Lemma byte_mod (x : Z) : byte x = x mod 256.
Proof. reflexivity. Qed.

Lemma low6 (x : Z) : Z.land (byte x) utf8.maskx = x mod 64.
Proof.
  unfold utf8.maskx.
  rewrite (land_mask (byte x) 6 ltac:(lia) : Z.land (byte x) 0x3F = byte x mod 64).
  rewrite byte_mod. change 256 with (4 * 64).
  rewrite Z.mul_comm, Z.rem_mul_r by lia. divmod.
Qed.

(** A byte of an encoding: a tag above [k] payload bits. *)
Lemma enc_byte (tag k x : Z) (c : ascii) :
  0 <= k -> 0 <= x < 2 ^ k -> tag * 2 ^ k + x = Z_of_ascii c ->
  ascii_of_Z (Z.lor (tag * 2 ^ k) x) = c.
Proof.
  intros K X E. rewrite lor_tag by assumption. rewrite E. apply ascii_of_Z_of_ascii.
Qed.

(** *** UTF-8: encoding undoes decoding on well-formed sequences *)

Lemma rune2_arith (p0 b1 : Z) : utf8.rune2 p0 b1 = (p0 mod 32) * 64 + b1 mod 64.
Proof.
  unfold utf8.rune2, utf8.mask2, utf8.maskx.
  rewrite (land_mask p0 5 ltac:(lia) : Z.land p0 0x1F = p0 mod 32).
  rewrite (land_mask b1 6 ltac:(lia) : Z.land b1 0x3F = b1 mod 64).
  rewrite (lor_shiftl _ _ 6) by (try apply Z.mod_pos_bound; lia). reflexivity.
Qed.

Lemma rune3_arith (p0 b1 b2 : Z) :
  utf8.rune3 p0 b1 b2 = (p0 mod 16) * 4096 + (b1 mod 64) * 64 + b2 mod 64.
Proof.
  unfold utf8.rune3, utf8.mask3, utf8.maskx.
  rewrite (land_mask p0 4 ltac:(lia) : Z.land p0 0x0F = p0 mod 16).
  rewrite (land_mask b1 6 ltac:(lia) : Z.land b1 0x3F = b1 mod 64).
  rewrite (land_mask b2 6 ltac:(lia) : Z.land b2 0x3F = b2 mod 64).
  rewrite (lor_shiftl _ _ 6) by (try apply Z.mod_pos_bound; lia).
  pose proof (Z.mod_pos_bound b1 64 ltac:(lia)).
  pose proof (Z.mod_pos_bound b2 64 ltac:(lia)).
  rewrite (lor_shiftl _ _ 12) by lia. lia.
Qed.

Lemma rune4_arith (p0 b1 b2 b3 : Z) :
  utf8.rune4 p0 b1 b2 b3
  = (p0 mod 8) * 262144 + (b1 mod 64) * 4096 + (b2 mod 64) * 64 + b3 mod 64.
Proof.
  unfold utf8.rune4, utf8.mask4, utf8.maskx.
  rewrite (land_mask p0 3 ltac:(lia) : Z.land p0 0x07 = p0 mod 8).
  rewrite (land_mask b1 6 ltac:(lia) : Z.land b1 0x3F = b1 mod 64).
  rewrite (land_mask b2 6 ltac:(lia) : Z.land b2 0x3F = b2 mod 64).
  rewrite (land_mask b3 6 ltac:(lia) : Z.land b3 0x3F = b3 mod 64).
  pose proof (Z.mod_pos_bound b1 64 ltac:(lia)).
  pose proof (Z.mod_pos_bound b2 64 ltac:(lia)).
  pose proof (Z.mod_pos_bound b3 64 ltac:(lia)).
  rewrite (lor_shiftl _ _ 6) by lia.
  rewrite (lor_shiftl _ _ 12) by lia.
  rewrite (lor_shiftl _ _ 18) by lia. lia.
Qed.

Lemma encode2 (c0 c1 : ascii) :
  0xC2 <= Z_of_ascii c0 <= 0xDF -> 0x80 <= Z_of_ascii c1 <= 0xBF ->
  utf8.EncodeRune (utf8.rune2 (Z_of_ascii c0) (Z_of_ascii c1)) = String c0 (String c1 "").
Proof.
  intros P0 B1. rewrite rune2_arith.
  set (r := Z_of_ascii c0 mod 32 * 64 + Z_of_ascii c1 mod 64).
  assert (R : 0x80 <= r <= 0x7FF) by (subst r; divmod).
  unfold utf8.EncodeRune, wrap_unsigned.
  rewrite (Z.mod_small r) by lia.
  destruct (Z.leb_spec r 0x7F); [lia|].
  destruct (Z.leb_spec r 0x7FF); [|lia].
  rewrite low6, byte_mod, Z.shiftr_div_pow2 by lia.
  f_equal; [|f_equal].
  - apply (enc_byte 3 6); [lia | subst r; divmod | subst r; divmod].
  - apply (enc_byte 2 6); [lia | subst r; divmod | subst r; divmod].
Qed.

Lemma encode3 (c0 c1 c2 : ascii) :
  0xE0 <= Z_of_ascii c0 <= 0xEF ->
  0x80 <= Z_of_ascii c1 <= 0xBF ->
  (Z_of_ascii c0 = 0xE0 -> 0xA0 <= Z_of_ascii c1) ->
  (Z_of_ascii c0 = 0xED -> Z_of_ascii c1 <= 0x9F) ->
  0x80 <= Z_of_ascii c2 <= 0xBF ->
  utf8.EncodeRune (utf8.rune3 (Z_of_ascii c0) (Z_of_ascii c1) (Z_of_ascii c2))
  = String c0 (String c1 (String c2 "")).
Proof.
  intros P0 B1 LO HI B2. rewrite rune3_arith.
  set (r := Z_of_ascii c0 mod 16 * 4096 + Z_of_ascii c1 mod 64 * 64 + Z_of_ascii c2 mod 64).
  assert (R : 0x800 <= r <= 0xFFFF) by (subst r; divmod).
  assert (S : r < 0xD800 \/ 0xDFFF < r) by (subst r; divmod).
  unfold utf8.EncodeRune, wrap_unsigned, utf8.MaxRune, utf8.surrogateMin, utf8.surrogateMax.
  rewrite (Z.mod_small r) by lia.
  destruct (Z.leb_spec r 0x7F); [lia|].
  destruct (Z.leb_spec r 0x7FF); [lia|].
  destruct (Z.ltb_spec 0x10FFFF r); [lia|].
  replace ((0xD800 <=? r) && (r <=? 0xDFFF)) with false
    by (symmetry; apply andb_false_iff; destruct S;
        [left; apply Z.leb_gt | right; apply Z.leb_gt]; lia).
  cbn [orb].
  destruct (Z.leb_spec r 0xFFFF); [|lia].
  unfold utf8.enc3.
  rewrite !low6, byte_mod, !Z.shiftr_div_pow2 by lia.
  f_equal; [|f_equal; [|f_equal]].
  - apply (enc_byte 14 4); [lia | subst r; divmod | subst r; divmod].
  - apply (enc_byte 2 6); [lia | subst r; divmod | subst r; divmod].
  - apply (enc_byte 2 6); [lia | subst r; divmod | subst r; divmod].
Qed.

Lemma encode4 (c0 c1 c2 c3 : ascii) :
  0xF0 <= Z_of_ascii c0 <= 0xF4 ->
  0x80 <= Z_of_ascii c1 <= 0xBF ->
  (Z_of_ascii c0 = 0xF0 -> 0x90 <= Z_of_ascii c1) ->
  (Z_of_ascii c0 = 0xF4 -> Z_of_ascii c1 <= 0x8F) ->
  0x80 <= Z_of_ascii c2 <= 0xBF ->
  0x80 <= Z_of_ascii c3 <= 0xBF ->
  utf8.EncodeRune
    (utf8.rune4 (Z_of_ascii c0) (Z_of_ascii c1) (Z_of_ascii c2) (Z_of_ascii c3))
  = String c0 (String c1 (String c2 (String c3 ""))).
Proof.
  intros P0 B1 LO HI B2 B3. rewrite rune4_arith.
  set (r := Z_of_ascii c0 mod 8 * 262144 + Z_of_ascii c1 mod 64 * 4096
            + Z_of_ascii c2 mod 64 * 64 + Z_of_ascii c3 mod 64).
  assert (R : 0x10000 <= r <= 0x10FFFF) by (subst r; divmod).
  unfold utf8.EncodeRune, wrap_unsigned, utf8.MaxRune, utf8.surrogateMin, utf8.surrogateMax.
  rewrite (Z.mod_small r) by lia.
  destruct (Z.leb_spec r 0x7F); [lia|].
  destruct (Z.leb_spec r 0x7FF); [lia|].
  destruct (Z.ltb_spec 0x10FFFF r); [lia|].
  destruct (Z.leb_spec r 0xDFFF); [lia|]. rewrite andb_false_r. cbn [orb].
  destruct (Z.leb_spec r 0xFFFF); [lia|].
  rewrite !low6, byte_mod, !Z.shiftr_div_pow2 by lia.
  f_equal; [|f_equal; [|f_equal; [|f_equal]]].
  - apply (enc_byte 30 3); [lia | subst r; divmod | subst r; divmod].
  - apply (enc_byte 2 6); [lia | subst r; divmod | subst r; divmod].
  - apply (enc_byte 2 6); [lia | subst r; divmod | subst r; divmod].
  - apply (enc_byte 2 6); [lia | subst r; divmod | subst r; divmod].
Qed.

Lemma first_cases (p0 : Z) (sz : nat) (lo hi : Z) :
  utf8.first p0 = Some (sz, lo, hi) ->
  (sz = 2%nat /\ lo = 0x80 /\ hi = 0xBF /\ 0xC2 <= p0 <= 0xDF)
  \/ (sz = 3%nat /\ 0xE0 <= p0 <= 0xEF /\ 0x80 <= lo /\ hi <= 0xBF
      /\ (p0 = 0xE0 -> lo = 0xA0) /\ (p0 = 0xED -> hi = 0x9F))
  \/ (sz = 4%nat /\ 0xF0 <= p0 <= 0xF4 /\ 0x80 <= lo /\ hi <= 0xBF
      /\ (p0 = 0xF0 -> lo = 0x90) /\ (p0 = 0xF4 -> hi = 0x8F)).
Proof.
  unfold utf8.first, utf8.locb, utf8.hicb.
  destruct (Z.ltb_spec p0 0xC2); [discriminate|].
  destruct (Z.ltb_spec p0 0xE0); [intros [= <- <- <-]; left; lia|].
  destruct (Z.eqb_spec p0 0xE0); [intros [= <- <- <-]; right; left; lia|].
  destruct (Z.eqb_spec p0 0xED); [intros [= <- <- <-]; right; left; lia|].
  destruct (Z.ltb_spec p0 0xF0); [intros [= <- <- <-]; right; left; lia|].
  destruct (Z.eqb_spec p0 0xF0); [intros [= <- <- <-]; right; right; lia|].
  destruct (Z.ltb_spec p0 0xF4); [intros [= <- <- <-]; right; right; lia|].
  destruct (Z.eqb_spec p0 0xF4); [intros [= <- <- <-]; right; right; lia|].
  discriminate.
Qed.

Lemma cont_range (b : Z) : utf8.cont b = true -> 0x80 <= b <= 0xBF.
Proof.
  unfold utf8.cont, utf8.locb, utf8.hicb. intros H.
  apply andb_true_iff in H. destruct H as [L U].
  apply Z.leb_le in L. apply Z.leb_le in U. lia.
Qed.

Lemma take_drop (n : nat) (s : string) : take n s ++ drop n s = s.
Proof.
  revert s. induction n as [|n IH]; intros [|c s]; simpl; try reflexivity.
  rewrite IH. reflexivity.
Qed.

Lemma drop_app_length (a t : string) : drop (String.length a) (a ++ t) = t.
Proof. induction a as [|c a IH]; simpl; [destruct t; reflexivity | exact IH]. Qed.

Lemma length_app (a b : string) :
  String.length (a ++ b) = (String.length a + String.length b)%nat.
Proof. induction a as [|c a IH]; simpl; [reflexivity | rewrite IH; reflexivity]. Qed.

Lemma app_assoc (a b c : string) : (a ++ b) ++ c = a ++ b ++ c.
Proof. induction a as [|x a IH]; simpl; [reflexivity | rewrite IH; reflexivity]. Qed.

Lemma length_drop (n : nat) (s : string) :
  String.length (drop n s) = (String.length s - n)%nat.
Proof.
  revert s. induction n as [|n IH]; intros [|c s]; simpl; try reflexivity.
  apply IH.
Qed.

(** A well-formed sequence in front of a string: its bytes are the encoding
    of its rune, and decoding looks at these bytes only. *)
Lemma DecodeRune_wellformed (c0 : ascii) (p1 : string) (rr : Z) (size : nat) :
  utf8.RuneSelf <= Z_of_ascii c0 ->
  utf8.DecodeRune (String c0 p1) = (rr, size) ->
  (rr =? utf8.RuneError) && (size =? 1)%nat = false ->
  exists chunk,
    utf8.EncodeRune rr = String c0 chunk
    /\ String.length (String c0 chunk) = size
    /\ take size (String c0 p1) = String c0 chunk
    /\ forall t, utf8.DecodeRune (String c0 chunk ++ t) = (rr, size).
Proof.
  intros P0 D V.
  assert (BAD : (utf8.RuneError, 1%nat) = (rr, size) -> False).
  { intros [= <- <-]. discriminate V. }
  unfold utf8.DecodeRune in D.
  destruct (Z.ltb_spec (Z_of_ascii c0) utf8.RuneSelf) as [|_]; [lia|].
  destruct (utf8.first (Z_of_ascii c0)) as [[[sz lo] hi]|] eqn:F;
    [|exfalso; apply BAD; destruct p1; exact D].
  destruct p1 as [|c1 p2]; [exfalso; exact (BAD D)|].
  destruct ((Z_of_ascii c1 <? lo) || (hi <? Z_of_ascii c1)) eqn:R1;
    [exfalso; exact (BAD D)|].
  apply orb_false_iff in R1. destruct R1 as [R1a R1b].
  apply Z.ltb_ge in R1a. apply Z.ltb_ge in R1b.
  pose proof (Z_of_ascii_range c0) as B0.
  destruct (first_cases _ _ _ _ F) as [C | [C | C]].
  - destruct C as [-> [-> [-> C]]]. cbn [Nat.leb] in D.
    apply pair_equal_spec in D; destruct D as [<- <-].
    exists (String c1 ""). rewrite encode2 by lia.
    repeat split. intros t. cbn [append]. unfold utf8.DecodeRune.
    destruct (Z.ltb_spec (Z_of_ascii c0) utf8.RuneSelf) as [|_]; [lia|].
    rewrite F.
    destruct (Z.ltb_spec (Z_of_ascii c1) 0x80); [lia|].
    destruct (Z.ltb_spec 0xBF (Z_of_ascii c1)); [lia|]. reflexivity.
  - destruct C as [-> [C0 [LO [HI [E0 ED]]]]]. cbn [Nat.leb] in D.
    destruct p2 as [|c2 p3]; [exfalso; exact (BAD D)|].
    destruct (utf8.cont (Z_of_ascii c2)) eqn:R2; [|exfalso; exact (BAD D)].
    cbn [negb] in D. apply pair_equal_spec in D; destruct D as [<- <-].
    pose proof (cont_range _ R2).
    exists (String c1 (String c2 "")). rewrite encode3 by lia.
    repeat split. intros t. cbn [append]. unfold utf8.DecodeRune.
    destruct (Z.ltb_spec (Z_of_ascii c0) utf8.RuneSelf) as [|_]; [lia|].
    rewrite F.
    destruct (Z.ltb_spec (Z_of_ascii c1) lo); [lia|].
    destruct (Z.ltb_spec hi (Z_of_ascii c1)); [lia|].
    cbn [orb Nat.leb]. rewrite R2. reflexivity.
  - destruct C as [-> [C0 [LO [HI [E0 ED]]]]]. cbn [Nat.leb] in D.
    destruct p2 as [|c2 p3]; [exfalso; exact (BAD D)|].
    destruct (utf8.cont (Z_of_ascii c2)) eqn:R2; [|exfalso; exact (BAD D)].
    cbn [negb] in D.
    destruct p3 as [|c3 p4]; [exfalso; exact (BAD D)|].
    destruct (utf8.cont (Z_of_ascii c3)) eqn:R3; [|exfalso; exact (BAD D)].
    cbn [negb] in D. apply pair_equal_spec in D; destruct D as [<- <-].
    pose proof (cont_range _ R2). pose proof (cont_range _ R3).
    exists (String c1 (String c2 (String c3 ""))). rewrite encode4 by lia.
    repeat split. intros t. cbn [append]. unfold utf8.DecodeRune.
    destruct (Z.ltb_spec (Z_of_ascii c0) utf8.RuneSelf) as [|_]; [lia|].
    rewrite F.
    destruct (Z.ltb_spec (Z_of_ascii c1) lo); [lia|].
    destruct (Z.ltb_spec hi (Z_of_ascii c1)); [lia|].
    cbn [orb Nat.leb]. rewrite R2, R3. reflexivity.
Qed.

(** *** JSON strings: [unquote] undoes [appendString] *)

(** One round of [unquote] reads what [appendString] wrote for a byte below
    [utf8.RuneSelf]. *)
Lemma ascii_step (c : ascii) :
  (Z_of_ascii c <? utf8.RuneSelf) = true ->
  (1 <= String.length (json.appendByte c))%nat
  /\ forall f tail,
       json.unquote (S f) (json.appendByte c ++ tail)
       = json.prepend (String c "") (json.unquote f tail).
Proof.
  destruct c as [[] [] [] [] [] [] [] []]; intros H; try discriminate H;
    (split; [vm_compute; lia | intros f tail; reflexivity]).
Qed.

Lemma nonascii_head (c : ascii) :
  utf8.RuneSelf <= Z_of_ascii c ->
  (c =? dquote)%char = false /\ (c =? "\")%char = false
  /\ (Z_of_ascii c <? 32) = false /\ (Z_of_ascii c <? utf8.RuneSelf) = false.
Proof.
  intros H. unfold utf8.RuneSelf in H.
  repeat split.
  - apply Ascii.eqb_neq. intros ->. vm_compute in H. apply H. reflexivity.
  - apply Ascii.eqb_neq. intros ->. vm_compute in H. apply H. reflexivity.
  - apply Z.ltb_ge. lia.
  - apply Z.ltb_ge. unfold utf8.RuneSelf. lia.
Qed.

(** One round of [unquote] copies a well-formed sequence. *)
Lemma nonascii_step (c0 : ascii) (chunk : string) (rr : Z) (size : nat)
    (f : nat) (tail : string) :
  utf8.RuneSelf <= Z_of_ascii c0 ->
  utf8.DecodeRune (String c0 chunk ++ tail) = (rr, size) ->
  String.length (String c0 chunk) = size ->
  json.unquote (S f) (String c0 chunk ++ tail)
  = json.prepend (utf8.EncodeRune rr) (json.unquote f tail).
Proof.
  intros P0 D L.
  destruct (nonascii_head c0 P0) as [Q [B [C R]]].
  pose proof (drop_app_length (String c0 chunk) tail) as DR. rewrite L in DR.
  cbn [append] in *. cbn [json.unquote]. rewrite Q, B, C, R.
  rewrite D. rewrite DR. reflexivity.
Qed.

(** One round of [unquote] reads the escape of U+2028 and U+2029. *)
Lemma separator_step (rr : Z) (f : nat) (tail : string) :
  (rr =? 0x2028) || (rr =? 0x2029) = true ->
  json.unquote (S f) (("\u202" ++ String (json.hex_digit (Z.land rr 0xF)) "") ++ tail)
  = json.prepend (utf8.EncodeRune rr) (json.unquote f tail).
Proof.
  intros H. apply orb_true_iff in H.
  destruct H as [H|H]; apply Z.eqb_eq in H; subst rr; reflexivity.
Qed.

Lemma unquote_appendString (n : nat) :
  forall s rest f,
    (String.length s <= n)%nat ->
    utf8.valid_from n s = true ->
    (String.length (json.appendString_loop n s) < f)%nat ->
    json.unquote f (json.appendString_loop n s ++ String dquote rest) = Some (s, rest).
Proof.
  induction n as [|n IH]; intros s rest f LEN V F.
  - destruct s as [|c s]; [|simpl in LEN; lia].
    destruct f; [simpl in F; lia|]. reflexivity.
  - destruct s as [|c s].
    + destruct f; [simpl in F; lia|]. reflexivity.
    + cbn [json.appendString_loop utf8.valid_from] in *.
      destruct (Z_of_ascii c <? utf8.RuneSelf) eqn:A.
      * destruct (ascii_step c A) as [L1 STEP].
        assert (D : utf8.DecodeRune (String c s) = (Z_of_ascii c, 1%nat))
          by (unfold utf8.DecodeRune; rewrite A; reflexivity).
        rewrite D in V.
        assert (V' : utf8.valid_from n s = true).
        { destruct ((Z_of_ascii c =? utf8.RuneError) && (1 =? 1)%nat);
            [discriminate V | exact V]. }
        rewrite length_app in F.
        destruct f as [|f]; [lia|].
        rewrite app_assoc, STEP.
        rewrite (IH s rest f); [reflexivity | simpl in LEN; lia | exact V' | lia].
      * apply Z.ltb_ge in A.
        destruct (utf8.DecodeRune (String c s)) as [rr size] eqn:D.
        destruct ((rr =? utf8.RuneError) && (size =? 1)%nat) eqn:BAD;
          [discriminate V|].
        destruct (DecodeRune_wellformed c s rr size A D BAD)
          as [chunk [ENC [L [T DT]]]].
        pose proof (take_drop size (String c s)) as TD. rewrite T in TD.
        assert (LD : (String.length (drop size (String c s)) <= n)%nat).
        { rewrite length_drop. cbn [String.length] in *. lia. }
        destruct ((rr =? 0x2028) || (rr =? 0x2029)) eqn:SEP.
        -- rewrite !length_app in F. cbn [String.length] in F.
           destruct f as [|f]; [lia|].
           rewrite <- !app_assoc.
           rewrite (app_assoc _ (json.appendString_loop n _) (String dquote rest)).
           rewrite (separator_step rr f _ SEP).
           rewrite (IH _ rest f LD V); [|simpl in F |- *; lia].
           cbn [json.prepend]. rewrite ENC, TD. reflexivity.
        -- rewrite T in *. rewrite length_app in F.
           destruct f as [|f]; [lia|].
           rewrite app_assoc.
           rewrite (nonascii_step c chunk rr size f _ A (DT _) L).
           rewrite (IH _ rest f LD V); [|simpl in F, L |- *; lia].
           cbn [json.prepend]. rewrite ENC, TD. reflexivity.
Qed.

(** The JSON text of a string of well-formed UTF-8 decodes to the string. *)
Lemma string_text_reads_back (s : string) :
  utf8.ValidString s = true ->
  json.Unmarshal (json.appendString s) = Ok (VString s).
Proof.
  intros V. unfold utf8.ValidString in V.
  unfold json.Unmarshal, json.parse, json.appendString.
  cbn [json.skip_ws]. change (json.isSpace dquote) with false. cbv iota.
  cbn [json.parse_value].
  change ((dquote =? "{")%char) with false.
  change ((dquote =? "[")%char) with false.
  change ((dquote =? dquote)%char) with true. cbv iota.
  unfold json.scan_string.
  rewrite (unquote_appendString (String.length s) s "" _ (le_n _) V).
  - reflexivity.
  - rewrite length_app. simpl. lia.
Qed.

Section Properties.

(** The functions of [strconv] and [time] the package is run with. *)
Variable appendFloat : float64 -> string.
Variable time_MarshalJSON : time.Time -> result bytes.
Variable time_Parse : string -> string -> result time.Time.
Variable localOffset : Z -> Z.

(** ** Null and the zero value *)

(** C1. For every wrapper type: [Scan] of nil succeeds and stores the zero
    value; [Value] of a zero-valued wrapper is nil with no error;
    [MarshalJSON] of a zero-valued wrapper is the JSON text [null]; and
    [UnmarshalJSON] of the text [null] succeeds and stores the zero value. *)
Theorem null_is_the_zero_value (w : wrapper) (old : carrier w) :
  Scan w old Nil = (zero w, None)
  /\ Value w (zero w) = Ok Nil
  /\ MarshalJSON appendFloat time_MarshalJSON w (zero w) = Ok "null"
  /\ UnmarshalJSON w old "null" = (zero w, None).
Proof.
  destruct w; repeat split; reflexivity.
Qed.

(** ** The database round trip *)

(** C2. For every wrapper type and every non-zero value [v] of its primitive
    type, [Value] of the wrapper made from [v] returns a non-nil driver value
    with no error, and [Scan] of that value into any wrapper succeeds and
    stores [v]. *)
Theorem database_round_trip (w : wrapper) (v : carrier w) :
  well_formed w v -> is_zero w v = false ->
  exists d, Value w v = Ok d /\ d <> Nil
            /\ forall fresh, Scan w fresh d = (v, None).
Proof.
  destruct w; simpl; intros WF NZ;
    [ exists (VBool v); unfold nnz.Bool.Value
    | exists (VInt64 (int64 v)); unfold nnz.Int.Value
    | exists (VInt64 (int64 v)); unfold nnz.Int64.Value
    | exists (VFloat64 v); unfold nnz.Float64.Value
    | exists (VString v); unfold nnz.String.Value
    | exists (VTime v); unfold nnz.Time.Value ];
    rewrite NZ; (split; [reflexivity | split; [discriminate | intros fresh]]);
    try reflexivity.
  - unfold nnz.Int.Scan; simpl. unfold int, int64.
    rewrite (wrap_signed_64_id v WF), (wrap_signed_64_id v WF). reflexivity.
  - unfold nnz.Int64.Scan; simpl. unfold int64.
    rewrite (wrap_signed_64_id v WF), (wrap_signed_64_id v WF). reflexivity.
Qed.

(** ** Type mismatches *)

(** [Scan] of a value whose dynamic type is not accepted fails with an error
    that names the wrapper's pointer type and the dynamic type of the
    value. *)
Lemma Scan_mismatch (w : wrapper) (old : carrier w) (v : any) :
  accepted w v = false ->
  Scan w old v
  = (old, Some (Errorf ("nnz: scanning " ++ declared_type w ++ ", got " ++ fmt.T v ++ ""))).
Proof.
  destruct w, v; simpl; intros H; try discriminate; reflexivity.
Qed.

Lemma Scan_mismatch_mentions (w : wrapper) (old : carrier w) (v : any) :
  accepted w v = false ->
  exists e, snd (Scan w old v) = Some e
            /\ mentions e (declared_type w) = true
            /\ mentions e (fmt.T v) = true.
Proof.
  intros H. rewrite (Scan_mismatch w old v H). eexists; split; [reflexivity|].
  unfold mentions. split.
  - apply (contains_app "nnz: scanning " (declared_type w) (", got " ++ fmt.T v ++ "")).
  - destruct w;
      match goal with
      | |- contains _ (?p ++ ?d ++ ?g ++ _) = true =>
          apply (contains_app (p ++ d ++ g) (fmt.T v) "")
      end.
Qed.

(** [UnmarshalJSON] of a JSON value that fails the type assertion reports the
    asserted type, whatever the value was: the [v] printed is the variable of
    the [if] statement. *)
Lemma UnmarshalJSON_mismatch (w : wrapper) (old : carrier w) (data : bytes) (v : any) :
  json.Unmarshal data = Ok v -> asserted w v = false ->
  UnmarshalJSON w old data
  = (old, Some (Errorf ("nnz: unmarshaling " ++ declared_type w
                          ++ ", got " ++ asserted_type w))).
Proof.
  intros U A.
  destruct w; simpl UnmarshalJSON;
    [ unfold nnz.Bool.UnmarshalJSON | unfold nnz.Int.UnmarshalJSON
    | unfold nnz.Int64.UnmarshalJSON | unfold nnz.Float64.UnmarshalJSON
    | unfold nnz.String.UnmarshalJSON | unfold nnz.Time.UnmarshalJSON ];
    rewrite U; destruct v; simpl in A; try discriminate; reflexivity.
Qed.

(** [UnmarshalJSON] of a JSON value of another kind than the wrapper's fails
    with an error that names the wrapper's pointer type. *)
Lemma UnmarshalJSON_unexpected_kind (w : wrapper) (old : carrier w)
    (data : bytes) (v : any) :
  json.Unmarshal data = Ok v -> expected_kind w v = false ->
  exists e, snd (UnmarshalJSON w old data) = Some e
            /\ mentions e (declared_type w) = true.
Proof.
  intros U K.
  assert (A : asserted w v = false).
  { pose proof (Unmarshal_kind data v U) as J.
    destruct w, v; simpl in *; try discriminate; reflexivity. }
  rewrite (UnmarshalJSON_mismatch w old data v U A).
  eexists; split; [reflexivity|]. unfold mentions.
  apply (contains_app "nnz: unmarshaling " (declared_type w) (", got " ++ asserted_type w)).
Qed.

(** C5. At the text of a JSON string, [Int.UnmarshalJSON] fails with a
    type-mismatch error that names the wrapper's type [*nnz.Int] and then
    [float64], the type it wanted; the message does not mention [string],
    the type of the value it was given. *)
Theorem UnmarshalJSON_mismatch_hides_actual_type (i : nnz.Int.t) :
  json.Unmarshal (quoted "abc") = Ok (VString "abc")
  /\ nnz.Int.UnmarshalJSON i (quoted "abc")
     = (i, Some (Errorf "nnz: unmarshaling *nnz.Int, got float64"))
  /\ mentions (Errorf "nnz: unmarshaling *nnz.Int, got float64") (fmt.T (VString "abc"))
     = false.
Proof.
  repeat split; reflexivity.
Qed.

(** ** JSON decoding of a timestamp *)

Lemma Time_UnmarshalJSON_string (t0 : nnz.Time.t) (data : bytes) (s : string) :
  json.Unmarshal data = Ok (VString s) ->
  nnz.Time.UnmarshalJSON t0 data
  = (t0, Some (Errorf "nnz: unmarshaling *nnz.Time, got time.Time")).
Proof.
  intros U. unfold nnz.Time.UnmarshalJSON. rewrite U. reflexivity.
Qed.

(** [Time.UnmarshalJSON] succeeds on the text [null] only. *)
Lemma Time_UnmarshalJSON_success (t0 t1 : nnz.Time.t) (data : bytes) :
  nnz.Time.UnmarshalJSON t0 data = (t1, None) ->
  json.Unmarshal data = Ok Nil /\ t1 = nnz.Time.zt.
Proof.
  unfold nnz.Time.UnmarshalJSON.
  destruct (json.Unmarshal data) as [v|e] eqn:U; [|discriminate].
  pose proof (Unmarshal_kind data v U) as K.
  destruct v; simpl in *; try discriminate.
  intros [= <-]. split; reflexivity.
Qed.

(** No timestamp other than the zero one comes back from its JSON text. *)
Lemma Time_text_never_reads_back (v fresh : nnz.Time.t) (data : bytes) :
  time.IsZero v = false ->
  nnz.Time.MarshalJSON time_MarshalJSON v = Ok data ->
  nnz.Time.UnmarshalJSON fresh data <> (v, None).
Proof.
  intros NZ _ H. apply Time_UnmarshalJSON_success in H. destruct H as [_ ->].
  discriminate NZ.
Qed.

(** C4. At the JSON string of an RFC 3339 timestamp, which is the text
    [Time.MarshalJSON] produces, [Time.UnmarshalJSON] does not succeed: the
    text decodes to a Go [string], the assertion to [time.Time] fails, and
    the call returns a type-mismatch error and leaves the wrapper as it
    was. *)
Theorem Time_UnmarshalJSON_rejects_timestamp_text (t0 : nnz.Time.t) :
  json.Unmarshal (quoted stamp_text) = Ok (VString stamp_text)
  /\ nnz.Time.UnmarshalJSON t0 (quoted stamp_text)
     = (t0, Some (Errorf "nnz: unmarshaling *nnz.Time, got time.Time")).
Proof.
  split; reflexivity.
Qed.

(** ** Text decoding of a timestamp *)

(** C6. [Time.UnmarshalText] of the empty text succeeds and stores the zero
    timestamp; of a text that [time.Parse] reads under the RFC 3339 layout it
    succeeds and stores the parsed instant; of a text that [time.Parse]
    rejects it returns the parser's error. *)
Theorem Time_UnmarshalText_cases (t0 : nnz.Time.t) :
  nnz.Time.UnmarshalText time_Parse t0 "" = (nnz.Time.zt, None)
  /\ (forall data nt, data <> "" ->
        time_Parse nnz.Time.RFC3339 data = Ok nt ->
        nnz.Time.UnmarshalText time_Parse t0 data = (nt, None))
  /\ (forall data err, data <> "" ->
        time_Parse nnz.Time.RFC3339 data = Err err ->
        snd (nnz.Time.UnmarshalText time_Parse t0 data) = Some err).
Proof.
  split; [reflexivity|].
  split; intros data x NE P; unfold nnz.Time.UnmarshalText;
    (destruct (String.eqb_spec data ""); [contradiction|]); rewrite P; reflexivity.
Qed.

(** ** The binary codec of a timestamp *)

(** C7. [Time.GobEncode] of the zero timestamp succeeds with the 15 bytes of
    the binary encoding, not with a null marker, and [Time.GobDecode] of
    these bytes succeeds and stores the zero timestamp. *)
Theorem gob_round_trip_of_zero_time :
  exists data,
    nnz.Time.GobEncode localOffset nnz.Time.zt = Ok data
    /\ String.length data = 15%nat
    /\ forall fresh, nnz.Time.GobDecode localOffset fresh data = (nnz.Time.zt, None).
Proof.
  eexists. split; [reflexivity|]. split; reflexivity.
Qed.

(** ** Failure leaves the wrapper alone *)

(** C8. For every wrapper type and every value stored in the wrapper, when
    [Scan], [UnmarshalJSON] or [Time.UnmarshalText] returns an error, the
    value stored afterwards is the value stored before. *)
Theorem failed_decoding_keeps_value (w : wrapper) (c : decoding w)
    (old : carrier w) (e : error) :
  snd (decode time_Parse w c old) = Some e ->
  fst (decode time_Parse w c old) = old.
Proof.
  destruct c as [w v | w data | data]; simpl.
  - destruct w, v; simpl; intros H; try discriminate H; reflexivity.
  - destruct w; simpl;
      [ unfold nnz.Bool.UnmarshalJSON | unfold nnz.Int.UnmarshalJSON
      | unfold nnz.Int64.UnmarshalJSON | unfold nnz.Float64.UnmarshalJSON
      | unfold nnz.String.UnmarshalJSON | unfold nnz.Time.UnmarshalJSON ];
      (destruct (json.Unmarshal data) as [v|err]; [destruct v|]);
      simpl; intros H; try discriminate H; reflexivity.
  - unfold nnz.Time.UnmarshalText.
    destruct (data =? "")%string; [discriminate|].
    destruct (time_Parse nnz.Time.RFC3339 data); simpl; [discriminate|reflexivity].
Qed.

(** ** The driver value of a float *)

(** C9, as amended.  For every non-zero [Float64], [Value] returns the
    underlying float64 itself, as a float64, with no error. *)
Theorem Float64_Value_is_the_float (f : nnz.Float64.t) :
  f64.eqb f f64.zero = false -> nnz.Float64.Value f = Ok (VFloat64 f).
Proof.
  intros NZ. unfold nnz.Float64.Value. rewrite NZ. reflexivity.
Qed.

(** ** Numbers with a fraction *)

(** C10, as amended.  [Int.UnmarshalJSON] and [Int64.UnmarshalJSON] of the
    text of a JSON number that [json.Unmarshal] decodes to a float64 [f] do
    not fail for a fraction.  That float64 is a zero or a finite value
    [(-1)^s * m * 2^e], never an infinity or a NaN; when its integer part
    fits an int64 they succeed and store it: 0 for a zero, and for a finite
    value the quotient rounded toward zero. *)
Theorem number_is_truncated (i : Z) (data : bytes) (f : float64) :
  json.Unmarshal data = Ok (VFloat64 f) ->
  let q := match f with
           | S754_finite s m e =>
               Z.quot (cond_Zopp s (Zpos m) * 2 ^ Z.max 0 e) (2 ^ Z.max 0 (- e))
           | _ => 0
           end in
  in_int64 q ->
  (f64.IsNaN f = false /\ f64.IsInf f = false)
  /\ nnz.Int.UnmarshalJSON i data = (q, None)
  /\ nnz.Int64.UnmarshalJSON i data = (q, None).
Proof.
  intros U q R. pose proof (Unmarshal_float data f U) as [NN NI].
  split; [split; assumption|].
  unfold nnz.Int.UnmarshalJSON, nnz.Int64.UnmarshalJSON. rewrite U.
  cbn [is_nil].
  destruct f as [s | s | | s m e]; [| discriminate NI | discriminate NN |].
  - split; reflexivity.
  - simpl. rewrite (to_int64_quot s m e R). split; reflexivity.
Qed.

End Properties.

(** ** The JSON round trip *)

(** C3, as amended.  For a [Bool], for an [Int] or [Int64] of magnitude at
    most [2^53], for a [String] of well-formed UTF-8, and for a finite
    [Float64] whose digits read back as the same float64, each non-zero:
    [MarshalJSON] of the wrapper made from the value succeeds, and
    [UnmarshalJSON] of the text it produced, into any wrapper, succeeds and
    stores the value. *)
Theorem json_round_trip (appendFloat : float64 -> string)
    (w : wrapper) (v : carrier w) :
  json_exact appendFloat w v -> is_zero w v = false ->
  forall time_MarshalJSON : time.Time -> result bytes,
  exists data,
    MarshalJSON appendFloat time_MarshalJSON w v = Ok data
    /\ forall fresh, UnmarshalJSON w fresh data = (v, None).
Proof.
  destruct w; simpl; intros E NZ tmj; try contradiction.
  - destruct v; [|discriminate NZ].
    exists "true". split; [reflexivity | intros fresh; reflexivity].
  - assert (I : int v = v)
      by (apply wrap_signed_64_id; unfold in_int64; lia).
    assert (N : v <> 0) by (apply Z.eqb_neq; exact NZ).
    destruct (int_text_reads_back v N E) as [f [U T]].
    exists (strconv.FormatInt v). unfold nnz.Int.MarshalJSON, nnz.Int.UnmarshalJSON.
    rewrite NZ, I, U. split; [reflexivity|]. intros fresh. simpl. rewrite T. reflexivity.
  - assert (I : int64 v = v)
      by (apply wrap_signed_64_id; unfold in_int64; lia).
    assert (N : v <> 0) by (apply Z.eqb_neq; exact NZ).
    destruct (int_text_reads_back v N E) as [f [U T]].
    exists (strconv.FormatInt v). unfold nnz.Int64.MarshalJSON, nnz.Int64.UnmarshalJSON.
    rewrite NZ, I, U. split; [reflexivity|]. intros fresh. simpl. rewrite T. reflexivity.
  - destruct E as [I [N U]].
    exists (appendFloat v).
    unfold nnz.Float64.MarshalJSON, json.Marshal_float64, nnz.Float64.UnmarshalJSON.
    rewrite NZ, I, N, U. split; [reflexivity | intros fresh; reflexivity].
  - exists (json.appendString v). unfold nnz.String.MarshalJSON, nnz.String.UnmarshalJSON.
    rewrite NZ, (string_text_reads_back v E).
    split; [reflexivity | intros fresh; reflexivity].
Qed.

(** A [Float64] that is not a number has no JSON text at all. *)
Lemma Float64_MarshalJSON_NaN (appendFloat : float64 -> string) :
  is_zero WFloat64 S754_nan = false
  /\ nnz.Float64.MarshalJSON appendFloat S754_nan = Err UnsupportedValueError.
Proof. split; reflexivity. Qed.

(** A [String] that is not well-formed UTF-8 comes back changed: the byte
    0xFF is written as the escape of U+FFFD and read as the three bytes of
    that rune. *)
Example String_ill_formed_comes_back_changed :
  let s := String (ascii_of_Z 0xFF) "" in
  utf8.ValidString s = false
  /\ nnz.String.MarshalJSON s = Ok (quoted ("\uff" ++ "fd"))
  /\ nnz.String.UnmarshalJSON "" (quoted ("\uff" ++ "fd"))
     = (utf8.EncodeRune utf8.RuneError, None)
  /\ utf8.EncodeRune utf8.RuneError <> s.
Proof.
  repeat split. vm_compute. discriminate.
Qed.

(** ** The scenarios of the specification *)

Example scenario_Int_0 :
  nnz.Int.MarshalJSON 0 = Ok "null" /\ nnz.Int.Value 0 = Ok Nil.
Proof. split; reflexivity. Qed.

Example scenario_Int_42 :
  nnz.Int.MarshalJSON 42 = Ok "42"
  /\ nnz.Int.Value 42 = Ok (VInt64 42)
  /\ nnz.Int.UnmarshalJSON 0 "42" = (42, None).
Proof. repeat split; reflexivity. Qed.

Example scenario_String_empty :
  nnz.String.MarshalJSON "" = Ok "null"
  /\ nnz.String.UnmarshalJSON "x" (quoted "") = ("", None).
Proof. split; reflexivity. Qed.

Example scenario_Bool_Scan :
  nnz.Bool.Scan true Nil = (false, None)
  /\ nnz.Bool.Scan false (VBool true) = (true, None)
  /\ nnz.Bool.Scan false (VString "true")
     = (false, Some (Errorf "nnz: scanning *nnz.Bool, got string")).
Proof. repeat split; reflexivity. Qed.

(** ** Instances *)

(** The JSON round trip at the [Int64] -42. *)
Lemma json_round_trip_minus_42 :
  (forall appendFloat, json_exact appendFloat WInt64 (-42))
  /\ is_zero WInt64 (-42) = false
  /\ forall (appendFloat : float64 -> string)
            (time_MarshalJSON : time.Time -> result bytes),
     exists data,
       MarshalJSON appendFloat time_MarshalJSON WInt64 (-42) = Ok data
       /\ forall fresh, UnmarshalJSON WInt64 fresh data = (-42, None).
Proof.
  assert (E : forall appendFloat, json_exact appendFloat WInt64 (-42))
    by (intros appendFloat; simpl; lia).
  assert (NZ : is_zero WInt64 (-42) = false) by reflexivity.
  split; [exact E|]. split; [exact NZ|].
  intros appendFloat.
  exact (json_round_trip appendFloat WInt64 (-42) (E appendFloat) NZ).
Defined.

(** The database round trip at the [Int64] 42. *)
Lemma database_round_trip_42 :
  well_formed WInt64 42 /\ is_zero WInt64 42 = false
  /\ exists d, Value WInt64 42 = Ok d /\ d <> Nil
               /\ forall fresh, Scan WInt64 fresh d = (42, None).
Proof.
  assert (WF : well_formed WInt64 42) by (simpl; unfold in_int64; lia).
  split; [exact WF|]. split; [reflexivity|].
  apply (database_round_trip WInt64 42 WF). reflexivity.
Defined.

(** [Time.UnmarshalText] at the text of a timestamp, with the reader of
    RFC 3339 of this file under a local zone at UTC. *)
Lemma Time_UnmarshalText_stamp :
  stamp_text <> ""
  /\ rfc3339.Parse (fun _ => 0) nnz.Time.RFC3339 stamp_text = Ok stamp
  /\ nnz.Time.UnmarshalText (rfc3339.Parse (fun _ => 0)) nnz.Time.zt stamp_text
     = (stamp, None).
Proof.
  assert (NE : stamp_text <> "") by discriminate.
  assert (P : rfc3339.Parse (fun _ => 0) nnz.Time.RFC3339 stamp_text = Ok stamp)
    by reflexivity.
  split; [exact NE|]. split; [exact P|].
  exact (proj1 (proj2 (Time_UnmarshalText_cases (rfc3339.Parse (fun _ => 0)) nnz.Time.zt))
           stamp_text stamp NE P).
Defined.

(** A failed [Scan]: a [Bool] holding [true] is given the string "true". *)
Lemma failed_Scan_keeps_true :
  snd (decode (rfc3339.Parse (fun _ => 0)) WBool (ByScan WBool (VString "true")) true)
  = Some (Errorf "nnz: scanning *nnz.Bool, got string")
  /\ fst (decode (rfc3339.Parse (fun _ => 0)) WBool (ByScan WBool (VString "true")) true)
     = true.
Proof.
  split; [reflexivity|].
  apply (failed_decoding_keeps_value (rfc3339.Parse (fun _ => 0)) WBool
           (ByScan WBool (VString "true")) true
           (Errorf "nnz: scanning *nnz.Bool, got string")).
  reflexivity.
Defined.

(** C9, as stated, fails at 1.5: [Value] returns a float64, and so no 64-bit
    integer. *)
Lemma Float64_Value_is_not_an_integer :
  f64.eqb one_and_a_half f64.zero = false
  /\ nnz.Float64.Value one_and_a_half = Ok (VFloat64 one_and_a_half)
  /\ ~ (exists n : Z, nnz.Float64.Value one_and_a_half = Ok (VInt64 n)).
Proof.
  split; [reflexivity|]. split; [reflexivity|].
  intros [n H]. discriminate H.
Qed.

(** [Float64.Value] at 1.5: the float64 itself. *)
Lemma Float64_Value_of_one_and_a_half :
  f64.eqb one_and_a_half f64.zero = false
  /\ nnz.Float64.Value one_and_a_half = Ok (VFloat64 one_and_a_half).
Proof.
  assert (NZ : f64.eqb one_and_a_half f64.zero = false) by reflexivity.
  split; [exact NZ|]. exact (Float64_Value_is_the_float one_and_a_half NZ).
Defined.

(** The text [3.5] is stored as 3 by [Int] and by [Int64]. *)
Lemma three_and_a_half_is_stored_as_3 :
  json.Unmarshal "3.5" = Ok (VFloat64 (S754_finite false 7881299347898368 (-51)))
  /\ in_int64 3
  /\ nnz.Int.UnmarshalJSON 0 "3.5" = (3, None)
  /\ nnz.Int64.UnmarshalJSON 0 "3.5" = (3, None).
Proof.
  assert (U : json.Unmarshal "3.5"
              = Ok (VFloat64 (S754_finite false 7881299347898368 (-51))))
    by reflexivity.
  assert (R : in_int64 3) by (unfold in_int64; lia).
  split; [exact U|]. split; [exact R|].
  exact (proj2 (number_is_truncated 0 "3.5"
                  (S754_finite false 7881299347898368 (-51)) U R)).
Defined.

(** A number with a fraction that decodes to a float64 zero is stored as 0:
    [0.0], [-0.0], and [0.5e-400], which is below the smallest float64. *)
Example fraction_that_decodes_to_zero_is_stored_as_0 :
  json.Unmarshal "0.0" = Ok (VFloat64 (S754_zero false))
  /\ json.Unmarshal "-0.0" = Ok (VFloat64 (S754_zero true))
  /\ json.Unmarshal "0.5e-400" = Ok (VFloat64 (S754_zero false))
  /\ nnz.Int.UnmarshalJSON 7 "0.0" = (0, None)
  /\ nnz.Int64.UnmarshalJSON 7 "-0.0" = (0, None)
  /\ nnz.Int.UnmarshalJSON 7 "0.5e-400" = (0, None)
  /\ nnz.Int64.UnmarshalJSON 7 "0.5e-400" = (0, None).
Proof.
  repeat split; vm_compute; reflexivity.
Qed.

(** C10, as stated, fails at [1.5e999], a JSON number with a fraction that is
    beyond the float64 range: [json.Unmarshal] reports it and both methods
    return that error.  And what is truncated is the nearest float64, not the
    number: twenty nines after the point are stored as 1. *)
Lemma fraction_beyond_float64_is_rejected :
  json.parse "1.5e999" = Some (json.Number (json.mkNumber false 15 998))
  /\ nnz.Int.UnmarshalJSON 7 "1.5e999" = (7, Some UnmarshalTypeError)
  /\ nnz.Int64.UnmarshalJSON 7 "1.5e999" = (7, Some UnmarshalTypeError)
  /\ nnz.Int.UnmarshalJSON 7 "0.99999999999999999999" = (1, None)
  /\ nnz.Int64.UnmarshalJSON 7 "0.99999999999999999999" = (1, None).
Proof.
  repeat split; vm_compute; reflexivity.
Qed.

(** The fraction is dropped toward zero: [-3.5] is stored as -3. *)
Example minus_three_and_a_half_is_stored_as_minus_3 :
  nnz.Int.UnmarshalJSON 0 "-3.5" = (-3, None)
  /\ nnz.Int64.UnmarshalJSON 0 "-3.5" = (-3, None).
Proof. split; reflexivity. Qed.

(** C3, as stated, fails at the [Int64] [2^53 + 1]: its JSON text is read
    through a float64 and comes back as [2^53]. *)
Lemma Int64_beyond_2_53_comes_back_rounded :
  well_formed WInt64 9007199254740993
  /\ is_zero WInt64 9007199254740993 = false
  /\ nnz.Int64.MarshalJSON 9007199254740993 = Ok "9007199254740993"
  /\ nnz.Int64.UnmarshalJSON 0 "9007199254740993" = (9007199254740992, None)
  /\ nnz.Int64.UnmarshalJSON 0 "9007199254740993" <> (9007199254740993, None).
Proof.
  split; [simpl; unfold in_int64; lia|].
  split; [reflexivity|]. split; [reflexivity|].
  split; [reflexivity|]. vm_compute. discriminate.
Qed.

(** * Further properties of the methods *)

(** ** The database side: [Scan] and [Value] *)

(** X1. For every wrapper, [Value] never returns an error, and the driver
    value it returns is nil exactly when the wrapped value is zero. *)
Theorem Value_is_nil_for_zero_only (w : wrapper) (v : carrier w) :
  exists d, Value w v = Ok d /\ (d = Nil <-> is_zero w v = true).
Proof.
  destruct w; simpl;
    [ unfold nnz.Bool.Value | unfold nnz.Int.Value | unfold nnz.Int64.Value
    | unfold nnz.Float64.Value | unfold nnz.String.Value | unfold nnz.Time.Value ];
    match goal with |- context [if ?b then _ else _] => destruct b end;
    eexists; (split; [reflexivity|]); split; intros H; try reflexivity; discriminate H.
Qed.

(** X2. For every wrapper, [Scan] returns no error exactly on nil and on the
    dynamic types of its [switch]: [bool] for [Bool], [int64] for [Int] and
    [Int64], [float64] for [Float64], [[]byte] and [string] for [String],
    [time.Time] for [Time]. *)
Theorem Scan_succeeds_on_accepted_types_only (w : wrapper) (old : carrier w) (v : any) :
  snd (Scan w old v) = None <-> accepted w v = true.
Proof.
  destruct w, v; simpl; split; intros H; try reflexivity; discriminate H.
Qed.

(** X3. [Scan] of a value of any other dynamic type leaves the wrapper as it
    was and returns an error whose message names the wrapper's pointer type
    and the dynamic type of the value given. *)
Theorem Scan_error_names_both_types (w : wrapper) (old : carrier w) (v : any) :
  accepted w v = false ->
  exists e, Scan w old v = (old, Some e)
            /\ mentions e (declared_type w) = true
            /\ mentions e (fmt.T v) = true.
Proof.
  intros H. rewrite (Scan_mismatch w old v H). eexists; split; [reflexivity|].
  unfold mentions. split.
  - apply (contains_app "nnz: scanning " (declared_type w) (", got " ++ fmt.T v ++ "")).
  - destruct w;
      match goal with
      | |- contains _ (?p ++ ?d ++ ?g ++ _) = true =>
          apply (contains_app (p ++ d ++ g) (fmt.T v) "")
      end.
Qed.

(** X4. The round trip seen from the database: when [Scan] takes a driver
    value, [Value] of what it stored returns that driver value again (a
    [[]byte] as the [string] of the same bytes), unless what it stored is
    zero, and then [Value] returns nil: a zero that was scanned is written
    back as NULL. *)
Theorem Value_after_Scan (w : wrapper) (old x : carrier w) (v : any) :
  driver_value_ok v -> Scan w old v = (x, None) ->
  Value w x = Ok (if is_zero w x then Nil else as_written v).
Proof.
  destruct w; destruct v as [| b | n | f | s | b | tm | l | m | o];
    simpl; intros OK H; try discriminate H;
    apply pair_equal_spec in H; destruct H as [<- _]; try reflexivity.
  - unfold nnz.Bool.Value. destruct (Bool.eqb b false); reflexivity.
  - unfold int. rewrite (wrap_signed_64_id n OK). unfold nnz.Int.Value, int64.
    rewrite (wrap_signed_64_id n OK). destruct (n =? 0); reflexivity.
  - unfold int64. rewrite (wrap_signed_64_id n OK). unfold nnz.Int64.Value, int64.
    rewrite (wrap_signed_64_id n OK). destruct (n =? 0); reflexivity.
  - unfold nnz.Float64.Value. destruct (f64.eqb f f64.zero); reflexivity.
  - unfold nnz.String.Value. destruct (s =? "")%string; reflexivity.
  - unfold nnz.String.Value. destruct (b =? "")%string; reflexivity.
  - unfold nnz.Time.Value. destruct (time.IsZero tm); reflexivity.
Qed.

(** ** The JSON side: errors of [UnmarshalJSON] *)

(** X5. [UnmarshalJSON] fails in two ways only: with the error of
    [json.Unmarshal], returned as it is, or, when the text decodes to a value
    that is neither nil nor of the asserted type, with the type-mismatch
    error of the wrapper. *)
Theorem UnmarshalJSON_fails_in_two_ways (w : wrapper) (old : carrier w)
    (data : bytes) (e : error) :
  snd (UnmarshalJSON w old data) = Some e ->
  json.Unmarshal data = Err e
  \/ exists v, json.Unmarshal data = Ok v /\ asserted w v = false
               /\ e = Errorf ("nnz: unmarshaling " ++ declared_type w
                                ++ ", got " ++ asserted_type w).
Proof.
  destruct (json.Unmarshal data) as [v|err] eqn:U.
  - destruct (asserted w v) eqn:A.
    + destruct w; simpl;
        [ unfold nnz.Bool.UnmarshalJSON | unfold nnz.Int.UnmarshalJSON
        | unfold nnz.Int64.UnmarshalJSON | unfold nnz.Float64.UnmarshalJSON
        | unfold nnz.String.UnmarshalJSON | unfold nnz.Time.UnmarshalJSON ];
        rewrite U; destruct v; simpl in A; try discriminate A; simpl; discriminate.
    + rewrite (UnmarshalJSON_mismatch w old data v U A). simpl.
      intros [= <-]. right. exists v. repeat split; assumption.
  - intros H. left.
    destruct w; simpl in H;
      [ unfold nnz.Bool.UnmarshalJSON in H | unfold nnz.Int.UnmarshalJSON in H
      | unfold nnz.Int64.UnmarshalJSON in H | unfold nnz.Float64.UnmarshalJSON in H
      | unfold nnz.String.UnmarshalJSON in H | unfold nnz.Time.UnmarshalJSON in H ];
      rewrite U in H; simpl in H; injection H as <-; reflexivity.
Qed.

Lemma skip_ws_blank (s : string) : blank s = true -> json.skip_ws s = "".
Proof.
  induction s as [|c s IH]; simpl; [reflexivity|].
  intros H. apply andb_true_iff in H. destruct H as [C B]. rewrite C. auto.
Qed.

(** X6. [UnmarshalJSON] of the empty text, or of white space only, fails
    with the syntax error of [json.Unmarshal] and leaves the wrapper as it
    was: only the text [null] stands for the zero value. *)
Theorem UnmarshalJSON_of_blank_text (w : wrapper) (old : carrier w) (data : bytes) :
  blank data = true -> UnmarshalJSON w old data = (old, Some SyntaxError).
Proof.
  intros B.
  assert (U : json.Unmarshal data = Err SyntaxError).
  { unfold json.Unmarshal, json.parse. rewrite (skip_ws_blank data B). reflexivity. }
  destruct w; simpl;
    [ unfold nnz.Bool.UnmarshalJSON | unfold nnz.Int.UnmarshalJSON
    | unfold nnz.Int64.UnmarshalJSON | unfold nnz.Float64.UnmarshalJSON
    | unfold nnz.String.UnmarshalJSON | unfold nnz.Time.UnmarshalJSON ];
    rewrite U; reflexivity.
Qed.

(** X7. [Time.UnmarshalJSON] never stores a timestamp other than the zero
    one: either it fails and leaves the wrapper as it was, or the text
    decodes to nil and the zero time is stored. *)
Theorem Time_UnmarshalJSON_stores_zero_time_only (t0 : nnz.Time.t) (data : bytes) :
  (exists e, nnz.Time.UnmarshalJSON t0 data = (t0, Some e))
  \/ (json.Unmarshal data = Ok Nil
      /\ nnz.Time.UnmarshalJSON t0 data = (nnz.Time.zt, None)).
Proof.
  unfold nnz.Time.UnmarshalJSON.
  destruct (json.Unmarshal data) as [v|e] eqn:U.
  - pose proof (Unmarshal_kind data v U) as K.
    destruct v; simpl in *; try discriminate K;
      try (left; eexists; reflexivity).
    right. split; reflexivity.
  - left. exists e. reflexivity.
Qed.

(** ** The JSON side: what [MarshalJSON] writes *)

Lemma FormatInt_not_null (v : Z) :
  v <> 0 -> in_int64 v -> strconv.FormatInt v <> "null".
Proof.
  intros NZ R E. unfold in_int64 in R. change (2 ^ 63) with 9223372036854775808 in R.
  unfold strconv.FormatInt in E.
  destruct (Z.ltb_spec v 0) as [N|P]; [discriminate E|].
  destruct (formatBits_head 19 v "") as [d [r [D F]]].
  { change (10 ^ Z.of_nat 20) with 100000000000000000000. lia. }
  rewrite F in E. injection E as C _.
  destruct (digit_char_facts d ltac:(lia)) as [I _].
  rewrite C in I. discriminate I.
Qed.

(** X8. [MarshalJSON] writes [null] for every zero value, and for a [Bool],
    an [Int], an [Int64] and a [String] for a zero value only: the text
    [null] never stands for a value that is present. *)
Theorem null_text_stands_for_zero (appendFloat : float64 -> string)
    (time_MarshalJSON : time.Time -> result bytes) (w : wrapper) (v : carrier w) :
  well_formed w v ->
  (is_zero w v = true -> MarshalJSON appendFloat time_MarshalJSON w v = Ok "null")
  /\ (json_concrete w = true ->
      MarshalJSON appendFloat time_MarshalJSON w v = Ok "null" -> is_zero w v = true).
Proof.
  intros WF. split.
  - destruct w; simpl; intros Z;
      [ unfold nnz.Bool.MarshalJSON | unfold nnz.Int.MarshalJSON
      | unfold nnz.Int64.MarshalJSON | unfold nnz.Float64.MarshalJSON
      | unfold nnz.String.MarshalJSON | unfold nnz.Time.MarshalJSON ];
      rewrite Z; reflexivity.
  - destruct w; simpl in *; intros C; try discriminate C.
    + unfold nnz.Bool.MarshalJSON. destruct v; [discriminate|reflexivity].
    + unfold nnz.Int.MarshalJSON. destruct (Z.eqb_spec v 0) as [E|NE]; [reflexivity|].
      unfold json.Marshal_int, int. rewrite (wrap_signed_64_id v WF).
      intros H. injection H as H. destruct (FormatInt_not_null v NE WF H).
    + unfold nnz.Int64.MarshalJSON. destruct (Z.eqb_spec v 0) as [E|NE]; [reflexivity|].
      unfold json.Marshal_int, int64. rewrite (wrap_signed_64_id v WF).
      intros H. injection H as H. destruct (FormatInt_not_null v NE WF H).
    + unfold nnz.String.MarshalJSON. destruct (v =? "")%string; [reflexivity|].
      unfold json.Marshal_string, json.appendString. intros H. discriminate H.
Qed.

(** X9. [Float64.MarshalJSON] fails, with the unsupported-value error of
    [json.Marshal], exactly for a NaN and for an infinity.  For every other
    float64 it succeeds: a zero, of either sign, gives [null], and any other
    finite value gives its number text, the digits [strconv] writes for
    it. *)
Theorem Float64_MarshalJSON_fails_for_NaN_and_Inf (appendFloat : float64 -> string)
    (f : nnz.Float64.t) :
  (nnz.Float64.MarshalJSON appendFloat f = Err UnsupportedValueError
   <-> f64.IsNaN f || f64.IsInf f = true)
  /\ (f64.IsNaN f || f64.IsInf f = false ->
      nnz.Float64.MarshalJSON appendFloat f
      = Ok (match f with S754_zero _ => "null" | _ => appendFloat f end)).
Proof.
  destruct f as [s | s | | s m e].
  - split; [split; intros H; [|discriminate H]; destruct s; discriminate H|].
    intros _. destruct s; reflexivity.
  - split; [split; intros H; [reflexivity|]; destruct s; reflexivity|].
    intros H. discriminate H.
  - split; [split; intros H; reflexivity|]. intros H. discriminate H.
  - assert (NZ : f64.eqb (S754_finite s m e) f64.zero = false)
      by (destruct s; reflexivity).
    unfold nnz.Float64.MarshalJSON. rewrite NZ.
    split; [split; intros H; discriminate H|]. intros _. reflexivity.
Qed.

(** ** The JSON text of any string *)

(** The escape written for a byte that starts no well-formed sequence is read
    as U+FFFD. *)
Lemma replacement_step (f : nat) (tail : string) :
  json.unquote (S f) (("\uff" ++ "fd") ++ tail)
  = json.prepend (utf8.EncodeRune utf8.RuneError) (json.unquote f tail).
Proof. reflexivity. Qed.

(** Whatever the bytes of [s], [unquote] reads what [appendString] wrote, and
    what it returns is well-formed UTF-8. *)
Lemma unquote_appendString_any (n : nat) :
  forall s rest f,
    (String.length s <= n)%nat ->
    (String.length (json.appendString_loop n s) < f)%nat ->
    exists s',
      json.unquote f (json.appendString_loop n s ++ String dquote rest) = Some (s', rest)
      /\ forall m, (String.length s' <= m)%nat -> utf8.valid_from m s' = true.
Proof.
  induction n as [|n IH]; intros s rest f LEN F.
  - destruct s as [|c s]; [|simpl in LEN; lia].
    destruct f; [simpl in F; lia|]. exists "". split; [reflexivity|].
    intros [|m] _; reflexivity.
  - destruct s as [|c s].
    + destruct f; [simpl in F; lia|]. exists "". split; [reflexivity|].
      intros [|m] _; reflexivity.
    + cbn [json.appendString_loop] in *.
      destruct (Z_of_ascii c <? utf8.RuneSelf) eqn:A.
      * destruct (ascii_step c A) as [L1 STEP].
        rewrite length_app in F.
        destruct f as [|f]; [lia|].
        destruct (IH s rest f) as [s' [U V]]; [simpl in LEN; lia | lia |].
        exists (String c s'). split.
        { rewrite app_assoc, STEP, U. reflexivity. }
        intros [|m] M; [reflexivity|]. cbn [utf8.valid_from].
        assert (D : utf8.DecodeRune (String c s') = (Z_of_ascii c, 1%nat))
          by (unfold utf8.DecodeRune; rewrite A; reflexivity).
        rewrite D.
        assert (NE : (Z_of_ascii c =? utf8.RuneError) = false).
        { apply Z.eqb_neq. apply Z.ltb_lt in A.
          unfold utf8.RuneSelf, utf8.RuneError in *. lia. }
        rewrite NE. cbn [andb drop]. apply V. cbn [String.length] in M. lia.
      * apply Z.ltb_ge in A.
        destruct (utf8.DecodeRune (String c s)) as [rr size] eqn:D.
        destruct ((rr =? utf8.RuneError) && (size =? 1)%nat) eqn:BAD.
        -- assert (LD : (String.length (drop size (String c s)) <= n)%nat).
           { apply andb_true_iff in BAD. destruct BAD as [_ S1].
             apply Nat.eqb_eq in S1. subst size. cbn [drop].
             cbn [String.length] in LEN. lia. }
           rewrite !length_app in F. cbn [String.length] in F.
           destruct f as [|f]; [lia|].
           destruct (IH (drop size (String c s)) rest f LD) as [s' [U V]]; [simpl; lia|].
           exists (utf8.EncodeRune utf8.RuneError ++ s'). split.
           { rewrite <- !app_assoc.
             rewrite (app_assoc _ (json.appendString_loop n _) (String dquote rest)).
             rewrite replacement_step, U. reflexivity. }
           intros [|m] M; [reflexivity|].
           change (utf8.EncodeRune utf8.RuneError ++ s')
             with (String (ascii_of_Z 239)
                     (String (ascii_of_Z 191) (String (ascii_of_Z 189) s'))) in *.
           cbn [utf8.valid_from].
           change (utf8.DecodeRune
                     (String (ascii_of_Z 239)
                        (String (ascii_of_Z 191) (String (ascii_of_Z 189) s'))))
             with (utf8.RuneError, 3%nat).
           cbn [andb Nat.eqb drop]. rewrite andb_false_r.
           apply V. cbn [String.length] in M. lia.
        -- destruct (DecodeRune_wellformed c s rr size A D BAD)
             as [chunk [ENC [L [T DT]]]].
           assert (VC : forall s' m,
                     (String.length (String c chunk ++ s') <= m)%nat ->
                     (forall m', (String.length s' <= m')%nat ->
                                 utf8.valid_from m' s' = true) ->
                     utf8.valid_from m (String c chunk ++ s') = true).
           { intros s' [|m] M V; [reflexivity|].
             pose proof (DT s') as DT'.
             pose proof (drop_app_length (String c chunk) s') as DR.
             rewrite L in DR. rewrite length_app, L in M.
             pose proof L as L'. cbn [String.length] in L'.
             cbn [append] in *. cbn [utf8.valid_from]. rewrite DT', BAD, DR.
             apply V. lia. }
           assert (LD : (String.length (drop size (String c s)) <= n)%nat).
           { rewrite length_drop. cbn [String.length] in *. lia. }
           destruct ((rr =? 0x2028) || (rr =? 0x2029)) eqn:SEP.
           ++ rewrite !length_app in F. cbn [String.length] in F.
              destruct f as [|f]; [lia|].
              destruct (IH (drop size (String c s)) rest f LD) as [s' [U V]];
                [simpl in F |- *; lia|].
              exists (String c chunk ++ s'). split.
              { rewrite <- !app_assoc.
                rewrite (app_assoc _ (json.appendString_loop n _) (String dquote rest)).
                rewrite (separator_step rr f _ SEP), U.
                cbn [json.prepend]. rewrite ENC. reflexivity. }
              intros m M. apply VC; assumption.
           ++ rewrite T in *. rewrite length_app in F.
              destruct f as [|f]; [lia|].
              destruct (IH (drop size (String c s)) rest f LD) as [s' [U V]];
                [simpl in F, L |- *; lia|].
              exists (String c chunk ++ s'). split.
              { rewrite app_assoc.
                rewrite (nonascii_step c chunk rr size f _ A (DT _) L), U.
                cbn [json.prepend]. rewrite ENC. reflexivity. }
              intros m M. apply VC; assumption.
Qed.

Lemma any_string_text_is_read (s : string) :
  exists s', json.Unmarshal (json.appendString s) = Ok (VString s')
             /\ utf8.ValidString s' = true.
Proof.
  destruct (unquote_appendString_any (String.length s) s ""
              (S (String.length
                    (json.appendString_loop (String.length s) s ++ String dquote ""))))
    as [s' [U V]]; [apply le_n | rewrite length_app; simpl; lia |].
  exists s'. split; [|apply V; apply le_n].
  unfold json.Unmarshal, json.parse, json.appendString.
  cbn [json.skip_ws]. change (json.isSpace dquote) with false. cbv iota.
  cbn [json.parse_value].
  change ((dquote =? "{")%char) with false.
  change ((dquote =? "[")%char) with false.
  change ((dquote =? dquote)%char) with true. cbv iota.
  unfold json.scan_string. rewrite U. reflexivity.
Qed.

(** X10. For every [String], whatever its bytes: [MarshalJSON] succeeds, and
    [UnmarshalJSON] of the text it wrote never fails; the string it stores
    is well-formed UTF-8, and it is the string that was marshalled exactly
    when that one was well-formed UTF-8. *)
Theorem String_JSON_text_is_always_read_back (s fresh : nnz.String.t) :
  exists data s',
    nnz.String.MarshalJSON s = Ok data
    /\ nnz.String.UnmarshalJSON fresh data = (s', None)
    /\ utf8.ValidString s' = true
    /\ (s' = s <-> utf8.ValidString s = true).
Proof.
  unfold nnz.String.MarshalJSON.
  destruct (s =? "")%string eqn:E.
  - apply String.eqb_eq in E. subst s.
    exists "null", "". repeat split.
  - destruct (any_string_text_is_read s) as [s' [U V]].
    exists (json.appendString s), s'. split; [reflexivity|].
    split; [unfold nnz.String.UnmarshalJSON; rewrite U; reflexivity|].
    split; [exact V|]. split.
    + intros <-. exact V.
    + intros VS. rewrite (string_text_reads_back s VS) in U.
      injection U as ->. reflexivity.
Qed.

(** ** The JSON text of any integer *)

(** An integer below [2^64] rounds to a finite float64. *)
Lemma binary_round_finite (s : bool) (p : positive) :
  Z.pos p < 2 ^ 64 ->
  exists m e, binary_round 53 1024 s p 0 = S754_finite s m e.
Proof.
  intros B.
  destruct (Z.lt_ge_cases (Z.pos p) (2 ^ 53)) as [S|L].
  { destruct (binary_round_small s p S) as [m [e [E _]]]. exists m, e. exact E. }
  pose proof (digits2_log2 p) as D.
  assert (LG : 53 <= Z.log2 (Z.pos p) < 64).
  { split; [apply Z.log2_le_pow2; lia | apply Z.log2_lt_pow2; lia]. }
  unfold binary_round, shl_align.
  replace (fexp 53 1024 (Z.pos (digits2_pos p) + 0)) with (Z.log2 (Z.pos p) - 52)
    by (unfold fexp, emin; lia).
  rewrite Z.sub_0_r.
  destruct (Z.log2 (Z.pos p) - 52) as [|k|k] eqn:K; [lia| |lia].
  unfold binary_round_aux, shr_fexp. cbn [Zdigits2].
  replace (fexp 53 1024 (Z.pos (digits2_pos p) + 0) - 0) with (Z.pos k)
    by (unfold fexp, emin; lia).
  cbn [shr shr_record_of_loc].
  set (r1 := iter_pos shr_1 k {| shr_m := Z.pos p; shr_r := false; shr_s := false |}).
  assert (M1 : shr_m r1 = Z.pos p / 2 ^ Z.pos k)
    by (subst r1; rewrite iter_shr_1 by (cbn; lia); reflexivity).
  assert (R1 : 2 ^ 52 <= shr_m r1 < 2 ^ 53).
  { rewrite M1.
    pose proof (Z.log2_spec (Z.pos p) ltac:(lia)) as [LO HI].
    replace (Z.log2 (Z.pos p)) with (52 + Z.pos k) in LO by lia.
    replace (Z.succ (Z.log2 (Z.pos p))) with (53 + Z.pos k) in HI by lia.
    rewrite Z.pow_add_r in LO, HI by lia.
    split.
    - apply Z.div_le_lower_bound; lia.
    - apply Z.div_lt_upper_bound; lia. }
  set (m1 := round_nearest_even (shr_m r1) (loc_of_shr_record r1)).
  assert (R2 : 2 ^ 52 <= m1 <= 2 ^ 53).
  { subst m1.
    destruct (round_nearest_even_step (shr_m r1) (loc_of_shr_record r1)) as [-> | ->];
      lia. }
  destruct m1 as [|q|q] eqn:Q; [lia| |lia].
  cbn [Zdigits2]. rewrite (digits2_log2 q).
  destruct (Z.eq_dec (Z.pos q) (2 ^ 53)) as [T|T].
  - assert (q = 9007199254740992%positive) as -> by (apply Pos2Z.inj; exact T).
    change (Z.log2 9007199254740992) with 53.
    replace (fexp 53 1024 (53 + 1 + (0 + Z.pos k)) - (0 + Z.pos k)) with 1
      by (unfold fexp, emin; lia).
    cbn [shr iter_pos shr_1 shr_m].
    destruct (Z.leb_spec (0 + Z.pos k + 1) (1024 - 53)); [|lia].
    eexists; eexists; reflexivity.
  - assert (LQ : Z.log2 (Z.pos q) = 52).
    { apply Z.log2_unique; lia. }
    rewrite LQ.
    replace (fexp 53 1024 (52 + 1 + (0 + Z.pos k)) - (0 + Z.pos k)) with 0
      by (unfold fexp, emin; lia).
    cbn [shr shr_m].
    destruct (Z.leb_spec (0 + Z.pos k) (1024 - 53)); [|lia].
    eexists; eexists; reflexivity.
Qed.

(** The JSON text of a non-zero 64-bit integer decodes to a float64. *)
Lemma any_int_text_is_read (v : Z) :
  v <> 0 -> in_int64 v ->
  exists f, json.Unmarshal (strconv.FormatInt v) = Ok (VFloat64 f).
Proof.
  intros NZ R. unfold in_int64 in R. change (2 ^ 63) with 9223372036854775808 in R.
  unfold json.Unmarshal.
  rewrite parse_FormatInt
    by (try assumption; change (10 ^ 20) with 100000000000000000000; lia).
  cbn [json.convert json.neg json.mant json.exp10].
  unfold strconv.ParseFloat, f64.of_decimal.
  destruct (Z.abs v) as [|p|p] eqn:A; [lia| |lia].
  change (10 ^ 0) with 1. rewrite Z.mul_1_r.
  assert (N : binary_normalize f64.prec f64.emax (cond_Zopp (v <? 0) (Z.pos p)) 0 (v <? 0)
              = binary_round 53 1024 (v <? 0) p 0).
  { destruct (v <? 0); reflexivity. }
  rewrite N.
  destruct (binary_round_finite (v <? 0) p) as [m [e ->]].
  { change (2 ^ 64) with 18446744073709551616. lia. }
  eexists. reflexivity.
Qed.

(** X11. For every [Int] and [Int64] of the 64-bit range: [MarshalJSON]
    succeeds, and [UnmarshalJSON] of the text it wrote never fails; what it
    stores is the value itself when the magnitude is at most [2^53]. *)
Theorem integer_JSON_text_is_always_read_back (v : Z) :
  in_int64 v ->
  (exists data r, nnz.Int.MarshalJSON v = Ok data
                  /\ (forall fresh, nnz.Int.UnmarshalJSON fresh data = (r, None))
                  /\ (- 2 ^ 53 <= v <= 2 ^ 53 -> r = v))
  /\ (exists data r, nnz.Int64.MarshalJSON v = Ok data
                     /\ (forall fresh, nnz.Int64.UnmarshalJSON fresh data = (r, None))
                     /\ (- 2 ^ 53 <= v <= 2 ^ 53 -> r = v)).
Proof.
  intros R.
  destruct (Z.eqb_spec v 0) as [Z0|NZ].
  { subst v. split; exists "null", 0;
      (split; [reflexivity|]); split; intros; reflexivity. }
  destruct (any_int_text_is_read v NZ R) as [f U].
  assert (E : - 2 ^ 53 <= v <= 2 ^ 53 -> f64.to_int64 f = v).
  { intros S. destruct (int_text_reads_back v NZ S) as [f' [U' T]].
    rewrite U in U'. injection U' as <-. exact T. }
  split; exists (strconv.FormatInt v), (f64.to_int64 f).
  - unfold nnz.Int.MarshalJSON, nnz.Int.UnmarshalJSON, json.Marshal_int, int.
    rewrite (wrap_signed_64_id v R), (proj2 (Z.eqb_neq v 0) NZ), U.
    split; [reflexivity|]. split; [intros fresh; reflexivity | exact E].
  - unfold nnz.Int64.MarshalJSON, nnz.Int64.UnmarshalJSON, json.Marshal_int, int64.
    rewrite (wrap_signed_64_id v R), (proj2 (Z.eqb_neq v 0) NZ), U.
    split; [reflexivity|]. split; [intros fresh; reflexivity | exact E].
Qed.

(** ** The binary codec on every timestamp *)

Lemma Z_of_ascii_put (x : Z) : Z_of_ascii (time.put x) = x mod 256.
Proof.
  unfold time.put, ascii_of_Z, Z_of_ascii. rewrite byte_mod.
  pose proof (Z.mod_pos_bound x 256 ltac:(lia)) as B.
  rewrite N_ascii_embedding by lia. lia.
Qed.

Lemma lor_low (a y k : Z) :
  0 <= k -> 0 <= a < 2 ^ k -> Z.lor a (y * 2 ^ k) = a + y * 2 ^ k.
Proof.
  intros K A. rewrite Z.lor_comm, lor_tag by assumption. lia.
Qed.

Lemma byte_at (s k : Z) :
  0 <= k -> Z.shiftr s k mod 256 = s / 2 ^ k - 256 * (s / 2 ^ (k + 8)).
Proof.
  intros K. rewrite Z.shiftr_div_pow2 by assumption.
  rewrite Z.pow_add_r, <- Z.div_div by lia.
  change (2 ^ 8) with 256. rewrite Z.mod_eq by lia. reflexivity.
Qed.

(** Eight bytes, most significant first, are the 64-bit integer they were cut
    from. *)
Lemma big_endian_64 (s : Z) :
  in_int64 s ->
  int64 (Z.lor (Z.shiftr s 0 mod 256) (Z.lor (Z.shiftl (Z.shiftr s 8 mod 256) 8)
        (Z.lor (Z.shiftl (Z.shiftr s 16 mod 256) 16)
        (Z.lor (Z.shiftl (Z.shiftr s 24 mod 256) 24)
        (Z.lor (Z.shiftl (Z.shiftr s 32 mod 256) 32)
        (Z.lor (Z.shiftl (Z.shiftr s 40 mod 256) 40)
        (Z.lor (Z.shiftl (Z.shiftr s 48 mod 256) 48)
               (Z.shiftl (Z.shiftr s 56 mod 256) 56))))))))
  = s.
Proof.
  intros R. unfold in_int64 in R.
  assert (B : forall k, 0 <= Z.shiftr s k mod 256 < 256)
    by (intros k; apply Z.mod_pos_bound; lia).
  pose proof (B 0) as B0. pose proof (B 8) as B1. pose proof (B 16) as B2.
  pose proof (B 24) as B3. pose proof (B 32) as B4. pose proof (B 40) as B5.
  pose proof (B 48) as B6. pose proof (B 56) as B7. clear B.
  pose proof (byte_at s 0 ltac:(lia)) as E0. pose proof (byte_at s 8 ltac:(lia)) as E1.
  pose proof (byte_at s 16 ltac:(lia)) as E2. pose proof (byte_at s 24 ltac:(lia)) as E3.
  pose proof (byte_at s 32 ltac:(lia)) as E4. pose proof (byte_at s 40 ltac:(lia)) as E5.
  pose proof (byte_at s 48 ltac:(lia)) as E6. pose proof (byte_at s 56 ltac:(lia)) as E7.
  cbn [Z.add Pos.add Pos.succ] in E0, E1, E2, E3, E4, E5, E6, E7.
  change (2 ^ 0) with 1 in E0. rewrite Z.div_1_r in E0.
  assert (Q : s / 2 ^ 64 = 0 \/ s / 2 ^ 64 = -1).
  { change (2 ^ 63) with 9223372036854775808 in R.
    change (2 ^ 64) with 18446744073709551616. divmod. }
  revert B0 B1 B2 B3 B4 B5 B6 B7 E0 E1 E2 E3 E4 E5 E6 E7 Q.
  generalize (Z.shiftr s 0 mod 256) (Z.shiftr s 8 mod 256) (Z.shiftr s 16 mod 256)
    (Z.shiftr s 24 mod 256) (Z.shiftr s 32 mod 256) (Z.shiftr s 40 mod 256)
    (Z.shiftr s 48 mod 256) (Z.shiftr s 56 mod 256)
    (s / 2 ^ 8) (s / 2 ^ 16) (s / 2 ^ 24) (s / 2 ^ 32) (s / 2 ^ 40) (s / 2 ^ 48)
    (s / 2 ^ 56) (s / 2 ^ 64).
  intros b0 b1 b2 b3 b4 b5 b6 b7 q1 q2 q3 q4 q5 q6 q7 q8.
  intros B0 B1 B2 B3 B4 B5 B6 B7 E0 E1 E2 E3 E4 E5 E6 E7 Q.
  rewrite !Z.shiftl_mul_pow2 by lia.
  rewrite (lor_low (b6 * 2 ^ 48) b7 56) by lia.
  replace (b6 * 2 ^ 48 + b7 * 2 ^ 56) with ((b6 + b7 * 2 ^ 8) * 2 ^ 48) by lia.
  rewrite (lor_low (b5 * 2 ^ 40) _ 48) by lia.
  replace (b5 * 2 ^ 40 + (b6 + b7 * 2 ^ 8) * 2 ^ 48)
    with ((b5 + b6 * 2 ^ 8 + b7 * 2 ^ 16) * 2 ^ 40) by lia.
  rewrite (lor_low (b4 * 2 ^ 32) _ 40) by lia.
  replace (b4 * 2 ^ 32 + (b5 + b6 * 2 ^ 8 + b7 * 2 ^ 16) * 2 ^ 40)
    with ((b4 + b5 * 2 ^ 8 + b6 * 2 ^ 16 + b7 * 2 ^ 24) * 2 ^ 32) by lia.
  rewrite (lor_low (b3 * 2 ^ 24) _ 32) by lia.
  replace (b3 * 2 ^ 24 + (b4 + b5 * 2 ^ 8 + b6 * 2 ^ 16 + b7 * 2 ^ 24) * 2 ^ 32)
    with ((b3 + b4 * 2 ^ 8 + b5 * 2 ^ 16 + b6 * 2 ^ 24 + b7 * 2 ^ 32) * 2 ^ 24) by lia.
  rewrite (lor_low (b2 * 2 ^ 16) _ 24) by lia.
  replace (b2 * 2 ^ 16
           + (b3 + b4 * 2 ^ 8 + b5 * 2 ^ 16 + b6 * 2 ^ 24 + b7 * 2 ^ 32) * 2 ^ 24)
    with ((b2 + b3 * 2 ^ 8 + b4 * 2 ^ 16 + b5 * 2 ^ 24 + b6 * 2 ^ 32 + b7 * 2 ^ 40)
          * 2 ^ 16) by lia.
  rewrite (lor_low (b1 * 2 ^ 8) _ 16) by lia.
  replace (b1 * 2 ^ 8
           + (b2 + b3 * 2 ^ 8 + b4 * 2 ^ 16 + b5 * 2 ^ 24 + b6 * 2 ^ 32 + b7 * 2 ^ 40)
             * 2 ^ 16)
    with ((b1 + b2 * 2 ^ 8 + b3 * 2 ^ 16 + b4 * 2 ^ 24 + b5 * 2 ^ 32 + b6 * 2 ^ 40
           + b7 * 2 ^ 48) * 2 ^ 8) by lia.
  rewrite (lor_low b0 _ 8) by lia.
  unfold int64, wrap_signed.
  change (2 ^ (64 - 1)) with 9223372036854775808.
  change (2 ^ 64) with 18446744073709551616.
  change (2 ^ 63) with 9223372036854775808 in R.
  change (2 ^ 8) with 256. change (2 ^ 16) with 65536. change (2 ^ 24) with 16777216.
  change (2 ^ 32) with 4294967296. change (2 ^ 40) with 1099511627776.
  change (2 ^ 48) with 281474976710656. change (2 ^ 56) with 72057594037927936.
  destruct Q as [-> | ->].
  - rewrite Z.mod_small; lia.
  - replace (b0 + (b1 + b2 * 256 + b3 * 65536 + b4 * 16777216 + b5 * 4294967296
              + b6 * 1099511627776 + b7 * 281474976710656) * 256 + 9223372036854775808)
      with (s + 9223372036854775808 + 1 * 18446744073709551616) by lia.
    rewrite Z.mod_add by lia. rewrite Z.mod_small; lia.
Qed.

Lemma big_endian_32 (n : Z) :
  0 <= n < 2 ^ 31 ->
  int32 (Z.lor (Z.shiftr n 0 mod 256) (Z.lor (Z.shiftl (Z.shiftr n 8 mod 256) 8)
        (Z.lor (Z.shiftl (Z.shiftr n 16 mod 256) 16)
               (Z.shiftl (Z.shiftr n 24 mod 256) 24))))
  = n.
Proof.
  intros R.
  assert (B : forall k, 0 <= Z.shiftr n k mod 256 < 256)
    by (intros k; apply Z.mod_pos_bound; lia).
  pose proof (B 0) as B0. pose proof (B 8) as B1. pose proof (B 16) as B2.
  pose proof (B 24) as B3. clear B.
  pose proof (byte_at n 0 ltac:(lia)) as E0. pose proof (byte_at n 8 ltac:(lia)) as E1.
  pose proof (byte_at n 16 ltac:(lia)) as E2. pose proof (byte_at n 24 ltac:(lia)) as E3.
  cbn [Z.add Pos.add Pos.succ] in E0, E1, E2, E3.
  change (2 ^ 0) with 1 in E0. rewrite Z.div_1_r in E0.
  assert (Q : n / 2 ^ 32 = 0).
  { apply Z.div_small. change (2 ^ 31) with 2147483648 in R.
    change (2 ^ 32) with 4294967296. lia. }
  revert B0 B1 B2 B3 E0 E1 E2 E3 Q.
  generalize (Z.shiftr n 0 mod 256) (Z.shiftr n 8 mod 256) (Z.shiftr n 16 mod 256)
    (Z.shiftr n 24 mod 256) (n / 2 ^ 8) (n / 2 ^ 16) (n / 2 ^ 24) (n / 2 ^ 32).
  intros b0 b1 b2 b3 q1 q2 q3 q4 B0 B1 B2 B3 E0 E1 E2 E3 Q.
  rewrite !Z.shiftl_mul_pow2 by lia.
  rewrite (lor_low (b2 * 2 ^ 16) b3 24) by lia.
  replace (b2 * 2 ^ 16 + b3 * 2 ^ 24) with ((b2 + b3 * 2 ^ 8) * 2 ^ 16) by lia.
  rewrite (lor_low (b1 * 2 ^ 8) _ 16) by lia.
  replace (b1 * 2 ^ 8 + (b2 + b3 * 2 ^ 8) * 2 ^ 16)
    with ((b1 + b2 * 2 ^ 8 + b3 * 2 ^ 16) * 2 ^ 8) by lia.
  rewrite (lor_low b0 _ 8) by lia.
  unfold int32, wrap_signed.
  change (2 ^ (32 - 1)) with 2147483648. change (2 ^ 32) with 4294967296.
  change (2 ^ 31) with 2147483648 in R.
  change (2 ^ 8) with 256. change (2 ^ 16) with 65536.
  rewrite Z.mod_small; lia.
Qed.

Lemma big_endian_16 (m : Z) :
  - 2 ^ 15 <= m < 2 ^ 15 ->
  int16 (Z.lor (Z.shiftr m 0 mod 256) (Z.shiftl (Z.shiftr m 8 mod 256) 8)) = m.
Proof.
  intros R.
  pose proof (Z.mod_pos_bound (Z.shiftr m 0) 256 ltac:(lia)) as B0.
  pose proof (Z.mod_pos_bound (Z.shiftr m 8) 256 ltac:(lia)) as B1.
  pose proof (byte_at m 0 ltac:(lia)) as E0. pose proof (byte_at m 8 ltac:(lia)) as E1.
  cbn [Z.add Pos.add Pos.succ] in E0, E1.
  change (2 ^ 0) with 1 in E0. rewrite Z.div_1_r in E0.
  assert (Q : m / 2 ^ 16 = 0 \/ m / 2 ^ 16 = -1).
  { change (2 ^ 15) with 32768 in R. change (2 ^ 16) with 65536. divmod. }
  revert B0 B1 E0 E1 Q.
  generalize (Z.shiftr m 0 mod 256) (Z.shiftr m 8 mod 256) (m / 2 ^ 8) (m / 2 ^ 16).
  intros b0 b1 q1 q2 B0 B1 E0 E1 Q.
  rewrite Z.shiftl_mul_pow2 by lia.
  rewrite (lor_low b0 b1 8) by lia.
  unfold int16, wrap_signed.
  change (2 ^ (16 - 1)) with 32768. change (2 ^ 16) with 65536.
  change (2 ^ 15) with 32768 in R. change (2 ^ 8) with 256.
  destruct Q as [-> | ->].
  - rewrite Z.mod_small; lia.
  - replace (b0 + b1 * 256 + 32768) with (m + 32768 + 1 * 65536) by lia.
    rewrite Z.mod_add by lia. rewrite Z.mod_small; lia.
Qed.

Lemma int16_range (z : Z) : - 2 ^ 15 <= int16 z < 2 ^ 15.
Proof.
  unfold int16, wrap_signed.
  change (2 ^ (16 - 1)) with 32768. change (2 ^ 16) with 65536. change (2 ^ 15) with 32768.
  pose proof (Z.mod_pos_bound (z + 32768) 65536 ltac:(lia)). lia.
Qed.

Lemma no_monotonic_bit (n : Z) : 0 <= n < 2 ^ 63 -> Z.land n time.hasMonotonic = 0.
Proof.
  intros R. unfold time.hasMonotonic. rewrite Z.land_comm.
  apply land_shiftl_low; lia.
Qed.

Lemma nsec_range (t : time.Time) : 0 <= time.nsec t < 2 ^ 30.
Proof.
  unfold time.nsec, time.nsecMask.
  change (Z.shiftl 1 30 - 1) with (2 ^ 30 - 1).
  rewrite land_mask by lia.
  pose proof (Z.mod_pos_bound (time.wall t) (2 ^ 30) ltac:(lia)) as B.
  unfold int32, wrap_signed.
  change (2 ^ (32 - 1)) with 2147483648. change (2 ^ 32) with 4294967296.
  change (2 ^ 30) with 1073741824 in *.
  rewrite Z.mod_small; lia.
Qed.

Lemma sec_range (t : time.Time) : in_int64 (time.ext t) -> in_int64 (time.sec t).
Proof.
  intros E. unfold time.sec.
  destruct (negb (Z.land (time.wall t) time.hasMonotonic =? 0)); [|exact E].
  unfold in_int64, int64, wrap_signed.
  change (2 ^ (64 - 1)) with 9223372036854775808.
  change (2 ^ 64) with 18446744073709551616.
  change (2 ^ 63) with 9223372036854775808.
  match goal with |- _ <= ?x mod ?m - _ < _ =>
    pose proof (Z.mod_pos_bound x m ltac:(lia)) end.
  lia.
Qed.

(** The seconds and nanoseconds of a timestamp without monotonic reading are
    its two fields. *)
Lemma instant_of_decoded (n s : Z) (l : option time.Location) :
  0 <= n < 2 ^ 30 ->
  time.sec (time.mkTime n s l) = s /\ time.nsec (time.mkTime n s l) = n.
Proof.
  intros N. unfold time.sec, time.nsec. cbn [time.wall time.ext].
  rewrite no_monotonic_bit
    by (change (2 ^ 30) with 1073741824 in N;
        change (2 ^ 63) with 9223372036854775808; lia).
  split; [reflexivity|].
  unfold time.nsecMask. change (Z.shiftl 1 30 - 1) with (2 ^ 30 - 1).
  rewrite land_mask by lia. rewrite Z.mod_small by assumption.
  unfold int32, wrap_signed.
  change (2 ^ (32 - 1)) with 2147483648. change (2 ^ 32) with 4294967296.
  change (2 ^ 30) with 1073741824 in N.
  rewrite Z.mod_small; lia.
Qed.

(** [UnmarshalBinary] on the 15 or 16 bytes [MarshalBinary] lays down: the
    seconds, the nanoseconds and the offset in minutes are read back. *)
Lemma decode_fields (localOffset : Z -> Z) (v s n m : Z) (tail : string) :
  (v = 1 /\ tail = "") \/ (exists c, v = 2 /\ tail = String c "") ->
  in_int64 s -> 0 <= n < 2 ^ 30 -> - 2 ^ 15 <= m < 2 ^ 15 ->
  exists l,
    time.UnmarshalBinary localOffset
      (String (time.put v)
      (String (time.put (Z.shiftr s 56)) (String (time.put (Z.shiftr s 48))
      (String (time.put (Z.shiftr s 40)) (String (time.put (Z.shiftr s 32))
      (String (time.put (Z.shiftr s 24)) (String (time.put (Z.shiftr s 16))
      (String (time.put (Z.shiftr s 8)) (String (time.put s)
      (String (time.put (Z.shiftr n 24)) (String (time.put (Z.shiftr n 16))
      (String (time.put (Z.shiftr n 8)) (String (time.put n)
      (String (time.put (Z.shiftr m 8)) (String (time.put m) tail)))))))))))))))
    = Ok (time.mkTime n s l)
    /\ (v = 1 -> m = -1 -> l = None).
Proof.
  intros V S N M.
  assert (SL : forall l, time.setLoc (time.mkTime (uint64 n) s None) l
                         = time.mkTime n s l).
  { intros l. assert (U : uint64 n = n).
    { unfold uint64, wrap_unsigned. apply Z.mod_small.
      change (2 ^ 30) with 1073741824 in N.
      change (2 ^ 64) with 18446744073709551616. lia. }
    rewrite U. unfold time.setLoc, time.stripMono. cbn [time.wall].
    rewrite no_monotonic_bit; [reflexivity|].
    change (2 ^ 30) with 1073741824 in N. change (2 ^ 63) with 9223372036854775808. lia. }
  pose proof (big_endian_64 s S) as ES.
  assert (N' : 0 <= n < 2 ^ 31)
    by (change (2 ^ 30) with 1073741824 in N; change (2 ^ 31) with 2147483648; lia).
  pose proof (big_endian_32 n N') as EN.
  pose proof (big_endian_16 m M) as EM.
  change (Z.shiftr s 0) with s in ES. change (Z.shiftr n 0) with n in EN.
  change (Z.shiftr m 0) with m in EM.
  destruct V as [[-> ->] | [c [-> ->]]].
  - unfold time.UnmarshalBinary.
    cbn [String.length Nat.eqb negb andb time.at_ String.get String.substring
         Nat.sub Nat.add].
    change (Z_of_ascii (time.put 1)) with 1.
    change (1 =? time.timeBinaryVersionV1) with true.
    change (1 =? time.timeBinaryVersionV2) with false.
    cbn [negb andb Nat.eqb].
    rewrite !Z_of_ascii_put. rewrite ES, EN, EM.
    destruct (m * 60 =? -1 * 60) eqn:O.
    + eexists. split; [rewrite SL; reflexivity|]. reflexivity.
    + match goal with |- context [if ?b then _ else _] => destruct b end;
        eexists; (split; [rewrite SL; reflexivity|]); intros _ ->; discriminate O.
  - unfold time.UnmarshalBinary.
    cbn [String.length Nat.eqb negb andb time.at_ String.get String.substring
         Nat.sub Nat.add].
    change (Z_of_ascii (time.put 2)) with 2.
    change (2 =? time.timeBinaryVersionV1) with false.
    change (2 =? time.timeBinaryVersionV2) with true.
    cbn [negb andb Nat.eqb].
    rewrite !Z_of_ascii_put. rewrite ES, EN, EM.
    match goal with |- context [if ?b then _ else _] => destruct b end;
      [|match goal with |- context [if ?b then _ else _] => destruct b end];
      eexists; (split; [rewrite SL; reflexivity|]); intros D; discriminate D.
Qed.

(** [UnmarshalBinary] reads the instant of what [MarshalBinary] wrote, and
    UTC as UTC. *)
Lemma UnmarshalBinary_MarshalBinary (localOffset : Z -> Z)
    (t : time.Time) (data : bytes) :
  in_int64 (time.ext t) -> time.MarshalBinary localOffset t = Ok data ->
  exists l, time.UnmarshalBinary localOffset data
            = Ok (time.mkTime (time.nsec t) (time.sec t) l)
            /\ (time.loc t = None -> l = None).
Proof.
  intros E M.
  pose proof (sec_range t E) as S. pose proof (nsec_range t) as N.
  unfold time.MarshalBinary in M.
  destruct (time.loc t) as [z|].
  - destruct ((Z.quot (time.zoneOffset localOffset z t) 60 <? -32768)
              || (Z.quot (time.zoneOffset localOffset z t) 60 =? -1)
              || (32767 <? Z.quot (time.zoneOffset localOffset z t) 60));
      [discriminate M|].
    destruct (negb (Z.rem (time.zoneOffset localOffset z t) 60 =? 0));
      injection M as <-.
    + destruct (decode_fields localOffset 2 (time.sec t) (time.nsec t)
                  (int16 (Z.quot (time.zoneOffset localOffset z t) 60))
                  (String (time.put (int8 (Z.rem (time.zoneOffset localOffset z t) 60)))
                          ""))
        as [l [D _]]; [right; eexists; split; reflexivity | assumption | assumption
                      | apply int16_range |].
      exists l. split; [exact D|discriminate].
    + destruct (decode_fields localOffset 1 (time.sec t) (time.nsec t)
                  (int16 (Z.quot (time.zoneOffset localOffset z t) 60)) "")
        as [l [D _]]; [left; split; reflexivity | assumption | assumption
                      | apply int16_range |].
      exists l. split; [exact D|discriminate].
  - injection M as <-.
    destruct (decode_fields localOffset 1 (time.sec t) (time.nsec t) (-1) "")
      as [l [D L]]; [left; split; reflexivity | assumption | assumption
                    | change (2 ^ 15) with 32768; lia |].
    exists l. split; [exact D|]. intros _. apply L; reflexivity.
Qed.

(** X12. Whatever [Time.GobEncode] wrote, [Time.GobDecode] reads: it stores
    a timestamp of the same instant (the same seconds and nanoseconds), with
    no monotonic clock reading, and in UTC when the encoded one was in
    UTC. *)
Theorem gob_round_trip_keeps_the_instant (localOffset : Z -> Z)
    (t : nnz.Time.t) (data : bytes) :
  in_int64 (time.ext t) ->
  nnz.Time.GobEncode localOffset t = Ok data ->
  exists t' : nnz.Time.t,
    (forall old, nnz.Time.GobDecode localOffset old data = (t', None))
    /\ time.sec t' = time.sec t /\ time.nsec t' = time.nsec t
    /\ Z.land (time.wall t') time.hasMonotonic = 0
    /\ (time.loc t = None -> time.loc t' = None).
Proof.
  intros E M. unfold nnz.Time.GobEncode in M.
  destruct (UnmarshalBinary_MarshalBinary localOffset t data E M) as [l [D L]].
  pose proof (nsec_range t) as N.
  destruct (instant_of_decoded (time.nsec t) (time.sec t) l N) as [S1 S2].
  exists (time.mkTime (time.nsec t) (time.sec t) l).
  split; [intros old; unfold nnz.Time.GobDecode; rewrite D; reflexivity|].
  split; [exact S1|]. split; [exact S2|]. split; [|exact L].
  cbn [time.wall]. apply no_monotonic_bit.
  change (2 ^ 30) with 1073741824 in N. change (2 ^ 63) with 9223372036854775808. lia.
Qed.

(** X13. The gob round trip is exact on every timestamp in UTC that has no
    monotonic clock reading: [GobEncode] succeeds and [GobDecode] of the
    bytes stores the timestamp itself, whatever the local zone. *)
Theorem gob_round_trip_of_UTC_time (localOffset : Z -> Z) (t old : nnz.Time.t) :
  time.loc t = None -> 0 <= time.wall t < 2 ^ 30 -> in_int64 (time.ext t) ->
  exists data, nnz.Time.GobEncode localOffset t = Ok data
               /\ nnz.Time.GobDecode localOffset old data = (t, None).
Proof.
  intros L W E. destruct t as [w e l]. cbn [time.loc time.wall time.ext] in *. subst l.
  destruct (instant_of_decoded w e None W) as [S1 S2].
  assert (M : exists data,
             time.MarshalBinary localOffset (time.mkTime w e None) = Ok data)
    by (eexists; reflexivity).
  destruct M as [data M]. exists data. split; [exact M|].
  destruct (UnmarshalBinary_MarshalBinary localOffset (time.mkTime w e None) data E M)
    as [l [D LL]].
  unfold nnz.Time.GobDecode. rewrite D, S1, S2, (LL eq_refl). reflexivity.
Qed.

(** X14. [Time.GobDecode] takes two layouts only, 15 bytes that start with
    the version byte 1 and 16 bytes that start with the version byte 2; on
    any other data it fails, and a failure leaves the wrapper as it was. *)
Theorem GobDecode_accepts_two_layouts_only (localOffset : Z -> Z)
    (old : nnz.Time.t) (data : bytes) :
  (snd (nnz.Time.GobDecode localOffset old data) = None
   <-> (time.at_ data 0 = 1 /\ String.length data = 15%nat)
       \/ (time.at_ data 0 = 2 /\ String.length data = 16%nat))
  /\ (snd (nnz.Time.GobDecode localOffset old data) <> None ->
      fst (nnz.Time.GobDecode localOffset old data) = old).
Proof.
  split.
  - unfold nnz.Time.GobDecode, time.UnmarshalBinary.
    unfold time.timeBinaryVersionV1, time.timeBinaryVersionV2.
    destruct (Nat.eqb_spec (String.length data) 0) as [L0|L0].
    { cbn [snd]. split; [discriminate|].
      intros [[_ H]|[_ H]]; rewrite H in L0; discriminate. }
    destruct (Z.eqb_spec (time.at_ data 0) 1) as [V1|V1];
      destruct (Z.eqb_spec (time.at_ data 0) 2) as [V2|V2]; cbn [negb andb].
    + lia.
    + destruct (Nat.eqb_spec (String.length data) (1 + 8 + 4 + 2)) as [L|L]; cbn [negb].
      * split; [intros _; left; split; assumption|].
        intros _.
        repeat match goal with |- context [if ?b then _ else _] => destruct b end;
          reflexivity.
      * cbn [snd]. split; [discriminate|]. intros [[_ H]|[H _]]; [|lia].
        exfalso. apply L. exact H.
    + destruct (Nat.eqb_spec (String.length data) (S (1 + 8 + 4 + 2))) as [L|L];
        cbn [negb].
      * split; [intros _; right; split; assumption|].
        intros _.
        repeat match goal with |- context [if ?b then _ else _] => destruct b end;
          reflexivity.
      * cbn [snd]. split; [discriminate|]. intros [[H _]|[_ H]]; [lia|].
        exfalso. apply L. exact H.
    + cbn [snd]. split; [discriminate|]. intros [[H _]|[H _]]; lia.
  - unfold nnz.Time.GobDecode.
    destruct (time.UnmarshalBinary localOffset data); cbn [fst snd]; [|reflexivity].
    intros H. exfalso. apply H. reflexivity.
Qed.

(** ** Instances of the further properties *)

(** A failed [Scan]: an [Int] holding 5 is given the string "7". *)
Lemma Scan_error_names_both_types_at_a_string :
  accepted WInt (VString "7") = false
  /\ exists e, Scan WInt 5 (VString "7") = (5, Some e)
               /\ mentions e "*nnz.Int" = true
               /\ mentions e "string" = true.
Proof.
  assert (A : accepted WInt (VString "7") = false) by reflexivity.
  split; [exact A|].
  exact (Scan_error_names_both_types WInt 5 (VString "7") A).
Defined.

(** A [String] scanned from the bytes of "abc" is written as the string
    "abc". *)
Lemma Value_after_Scan_of_bytes :
  driver_value_ok (VBytes "abc")
  /\ Scan WString "" (VBytes "abc") = ("abc", None)
  /\ Value WString "abc" = Ok (VString "abc").
Proof.
  assert (D : driver_value_ok (VBytes "abc")) by exact I.
  assert (S : Scan WString "" (VBytes "abc") = ("abc", None)) by reflexivity.
  split; [exact D|]. split; [exact S|].
  exact (Value_after_Scan WString "" "abc" (VBytes "abc") D S).
Defined.

(** A failure of [Int.UnmarshalJSON] at a text that is no JSON: the error is
    the one of [json.Unmarshal]. *)
Lemma UnmarshalJSON_fails_in_two_ways_at_Int :
  snd (UnmarshalJSON WInt 7 "{") = Some SyntaxError
  /\ (json.Unmarshal "{" = Err SyntaxError
      \/ exists v, json.Unmarshal "{" = Ok v /\ asserted WInt v = false
                   /\ SyntaxError = Errorf ("nnz: unmarshaling " ++ declared_type WInt
                                              ++ ", got " ++ asserted_type WInt)).
Proof.
  assert (H : snd (UnmarshalJSON WInt 7 "{") = Some SyntaxError) by reflexivity.
  split; [exact H|].
  exact (UnmarshalJSON_fails_in_two_ways WInt 7 "{" SyntaxError H).
Defined.

(** Two spaces are no JSON text for a [Bool]. *)
Lemma UnmarshalJSON_of_two_spaces :
  blank "  " = true /\ UnmarshalJSON WBool true "  " = (true, Some SyntaxError).
Proof.
  assert (B : blank "  " = true) by reflexivity.
  split; [exact B|].
  exact (UnmarshalJSON_of_blank_text WBool true "  " B).
Defined.

(** The [String] "null" is not written as the text [null]. *)
Lemma null_text_stands_for_zero_at_the_word_null :
  well_formed WString "null"
  /\ forall (appendFloat : float64 -> string)
            (time_MarshalJSON : time.Time -> result bytes),
       (is_zero WString "null" = true ->
        MarshalJSON appendFloat time_MarshalJSON WString "null" = Ok "null")
       /\ (json_concrete WString = true ->
           MarshalJSON appendFloat time_MarshalJSON WString "null" = Ok "null" ->
           is_zero WString "null" = true).
Proof.
  assert (WF : well_formed WString "null") by exact I.
  split; [exact WF|].
  intros appendFloat time_MarshalJSON.
  exact (null_text_stands_for_zero appendFloat time_MarshalJSON WString "null" WF).
Defined.

(** The JSON round trip of the [Int64] [2^53 + 1] does not fail. *)
Lemma integer_JSON_text_is_always_read_back_beyond_2_53 :
  in_int64 9007199254740993
  /\ (exists data r,
        nnz.Int.MarshalJSON 9007199254740993 = Ok data
        /\ (forall fresh, nnz.Int.UnmarshalJSON fresh data = (r, None))
        /\ (- 2 ^ 53 <= 9007199254740993 <= 2 ^ 53 -> r = 9007199254740993))
  /\ (exists data r,
        nnz.Int64.MarshalJSON 9007199254740993 = Ok data
        /\ (forall fresh, nnz.Int64.UnmarshalJSON fresh data = (r, None))
        /\ (- 2 ^ 53 <= 9007199254740993 <= 2 ^ 53 -> r = 9007199254740993)).
Proof.
  assert (R : in_int64 9007199254740993) by (unfold in_int64; lia).
  split; [exact R|].
  exact (integer_JSON_text_is_always_read_back 9007199254740993 R).
Defined.

(** The gob round trip of a timestamp one hour east of UTC, under a local
    zone at UTC. *)
Lemma gob_round_trip_keeps_the_instant_of_stamp_east :
  in_int64 (time.ext stamp_east)
  /\ exists data,
       nnz.Time.GobEncode (fun _ => 0) stamp_east = Ok data
       /\ exists t' : nnz.Time.t,
            (forall old, nnz.Time.GobDecode (fun _ => 0) old data = (t', None))
            /\ time.sec t' = time.sec stamp_east
            /\ time.nsec t' = time.nsec stamp_east
            /\ Z.land (time.wall t') time.hasMonotonic = 0
            /\ (time.loc stamp_east = None -> time.loc t' = None).
Proof.
  assert (E : in_int64 (time.ext stamp_east)) by (unfold in_int64; simpl; lia).
  split; [exact E|].
  assert (M : exists data, nnz.Time.GobEncode (fun _ => 0) stamp_east = Ok data)
    by (eexists; reflexivity).
  destruct M as [data M]. exists data. split; [exact M|].
  exact (gob_round_trip_keeps_the_instant (fun _ => 0) stamp_east data E M).
Defined.

(** The gob round trip of a timestamp in UTC, under a local zone at UTC. *)
Lemma gob_round_trip_of_stamp :
  time.loc stamp = None /\ 0 <= time.wall stamp < 2 ^ 30 /\ in_int64 (time.ext stamp)
  /\ exists data, nnz.Time.GobEncode (fun _ => 0) stamp = Ok data
                  /\ nnz.Time.GobDecode (fun _ => 0) nnz.Time.zt data = (stamp, None).
Proof.
  assert (L : time.loc stamp = None) by reflexivity.
  assert (W : 0 <= time.wall stamp < 2 ^ 30) by (simpl; lia).
  assert (E : in_int64 (time.ext stamp)) by (unfold in_int64; simpl; lia).
  split; [exact L|]. split; [exact W|]. split; [exact E|].
  exact (gob_round_trip_of_UTC_time (fun _ => 0) stamp nnz.Time.zt L W E).
Defined.
